(** * Ora payment service: configuration, auth middleware, startup,
      database sessions, log flattening and the messaging core

    A shallow embedding of [backend/payment/app] (config/settings.py,
    middleware/auth.py, main.py, infrastructure/database/config.py and
    infrastructure/telemetry/logging.py) and of the messaging components
    that the specification describes (RetryScheduler, Publisher,
    ConsumerPool, ApplicationManager), with the properties of the
    specification and of the code stated and settled over it. *)

From Stdlib Require Import ZArith QArith Qminmax Qpower Lia Lqa List Ascii String.
From stdpp Require Import base gmap strings list.

Set Default Proof Using "Type".
Local Open Scope Z_scope.

(** ** Python runtime pieces shared by the modules *)

Module Py.

(** The exception classes the sources mention.  [BaseError] stands for
    the exceptions outside [Exception] (cancellation, keyboard
    interrupt), which an [except Exception] clause does not catch. *)
Inductive exn : Type :=
| ValueError
| TypeError
| UnauthorizedException (message : string) (code : string)
| OtherException (message : string)
| BaseError (message : string).

Definition is_Exception (e : exn) : bool :=
  match e with
  | BaseError _ => false
  | _ => true
  end.

(** A computation returns a value or raises. *)
Inductive result (A : Type) : Type :=
| Ok (a : A)
| Raise (e : exn).
Arguments Ok {A} a.
Arguments Raise {A} e.

Definition bind {A B} (c : result A) (k : A -> result B) : result B :=
  match c with
  | Ok a => k a
  | Raise e => Raise e
  end.

#[global] Instance result_bind : MBind result := fun A B k c => bind c k.
#[global] Instance result_ret : MRet result := @Ok.

(** [try: c  except (ValueError, TypeError): h] *)
Definition try_except_value_type {A} (c : result A) (h : result A) : result A :=
  match c with
  | Raise ValueError | Raise TypeError => h
  | _ => c
  end.

(** [str.lower] on one ASCII character; the set of words it is compared
    with in the sources is ASCII, and no non-ASCII character lowers to
    one of their letters. *)
Definition lower_ascii (c : ascii) : ascii :=
  let n := N_of_ascii c in
  if ((65 <=? n) && (n <=? 90))%N then ascii_of_N (n + 32) else c.

Fixpoint lower (s : string) : string :=
  match s with
  | EmptyString => EmptyString
  | String c s' => String (lower_ascii c) (lower s')
  end.

(** [s.startswith(p)] *)
Fixpoint startswith (s p : string) : bool :=
  match p with
  | EmptyString => true
  | String a p' =>
      match s with
      | EmptyString => false
      | String b s' => if Ascii.eqb a b then startswith s' p' else false
      end
  end.

(** [s.split(sep)] for a non-empty separator: the pieces between the
    non-overlapping occurrences of [sep], scanned from the left.
    [skip] counts the characters of a separator still to be dropped and
    [cur] holds the current piece reversed. *)
Fixpoint rev_string (acc s : string) : string :=
  match s with
  | EmptyString => acc
  | String c s' => rev_string (String c acc) s'
  end.

Fixpoint split_from (sep : string) (skip : nat) (cur : string) (s : string)
  : list string :=
  match s with
  | EmptyString => [rev_string EmptyString cur]
  | String c s' =>
      match skip with
      | S k => split_from sep k cur s'
      | O =>
          if startswith s sep
          then rev_string EmptyString cur
                 :: split_from sep (String.length sep - 1) EmptyString s'
          else split_from sep 0 (String c cur) s'
      end
  end.

(** An empty separator raises [ValueError]. *)
Definition split (s sep : string) : result (list string) :=
  match sep with
  | EmptyString => Raise ValueError
  | _ => Ok (split_from sep 0 EmptyString s)
  end.

End Py.


(** ** config/settings.py *)

Module Settings.
Import Py.

(** [int(str)] and [float(str)] are built-ins of the interpreter: they
    are taken as parameters, [None] standing for the [ValueError] they
    raise on text they do not accept.  [float_2_0] is the literal [2.0]. *)
Record builtins : Type := {
  float : Type;
  py_int : string -> option Z;
  py_float : string -> option float;
  float_2_0 : float
}.

(** The types a default value of [get_env_var] can have. *)
Inductive pytype : Type := TStr | TInt | TFloat | TBool.

Definition denote (B : builtins) (t : pytype) : Type :=
  match t with
  | TStr => string
  | TInt => Z
  | TFloat => float B
  | TBool => bool
  end.

Definition true_words : list string := ["true"; "1"; "t"; "yes"; "y"].

Definition is_true_word (s : string) : bool :=
  bool_decide (s ∈ true_words).

(** [var_type(value)]: the constructor of the default's type applied to
    the text. *)
Definition construct (B : builtins) (t : pytype) (value : string)
  : result (denote B t) :=
  match t return result (denote B t) with
  | TStr => Ok value
  | TInt => match py_int B value with Some z => Ok z | None => Raise ValueError end
  | TFloat => match py_float B value with Some f => Ok f | None => Raise ValueError end
  | TBool => Ok (negb (String.eqb value EmptyString))
  end.

Section WithEnvironment.
Variable B : builtins.
(** [os.environ] *)
Variable environ : gmap string string.

Definition get_env_var (t : pytype) (name : string) (default : denote B t)
  : result (denote B t) :=
  match environ !! name with
  | None => Ok default
  | Some value =>
      match t return denote B t -> result (denote B t) with
      | TBool => fun _ => Ok (is_true_word (lower value))
      | t' => fun default =>
          try_except_value_type (construct B t' value) (Ok default)
      end default
  end.

End WithEnvironment.

(** What a set variable contributes for a default of type [t]: the value
    its text converts to, [None] when the text is not convertible. *)
Definition converted (B : builtins) (t : pytype) (value : string) : option (denote B t) :=
  match t return option (denote B t) with
  | TStr => Some value
  | TInt => py_int B value
  | TFloat => py_float B value
  | TBool => Some (bool_decide (lower value ∈ ["true"; "1"; "t"; "yes"; "y"]))
  end.

(** The class bodies run once, when the module is imported, attribute by
    attribute in source order; the record is the class's attributes. *)

Module AppSettings.
Record t : Type := {
  name : string; version : string; port : string; host : string; debug : bool }.
Definition class_body (B : builtins) (environ : gmap string string) : result t :=
  name ← get_env_var B environ TStr "PAYMENT_NAME" "payment-service";
  version ← get_env_var B environ TStr "PAYMENT_VERSION" "1.0.0";
  port ← get_env_var B environ TStr "PAYMENT_PORT" "8086";
  host ← get_env_var B environ TStr "PAYMENT_HOST" "0.0.0.0";
  debug ← get_env_var B environ TBool "PAYMENT_DEBUG" false;
  Ok {| name := name; version := version; port := port; host := host;
        debug := debug |}.
End AppSettings.

Module CORSSettings.
Record t : Type := {
  allow_credentials : bool;
  allow_origins : list string;
  allow_methods : list string;
  allow_headers : list string }.
Definition class_body (B : builtins) (environ : gmap string string) : result t :=
  allow_credentials ← get_env_var B environ TBool "ALLOWED_CREDENTIALS" true;
  origins ← get_env_var B environ TStr "ALLOWED_ORIGINS" "";
  allow_origins ← split origins ",";
  methods ← get_env_var B environ TStr "ALLOWED_METHODS" "";
  allow_methods ← split methods ",";
  headers ← get_env_var B environ TStr "ALLOWED_HEADERS" "";
  allow_headers ← split headers ",";
  Ok {| allow_credentials := allow_credentials; allow_origins := allow_origins;
        allow_methods := allow_methods; allow_headers := allow_headers |}.
End CORSSettings.

Module DatabaseSettings.
Record t : Type := {
  host : string; port : Z; name : string; user : string; password : string;
  pool_size : Z; max_overflow : Z; timeout : Z; debug : bool }.
Definition class_body (B : builtins) (environ : gmap string string) : result t :=
  host ← get_env_var B environ TStr "POSTGRES_HOST" "localhost";
  port ← get_env_var B environ TInt "POSTGRES_PORT" 5432;
  name ← get_env_var B environ TStr "PAYMENT_DB_NAME" "";
  user ← get_env_var B environ TStr "PAYMENT_DB_USER" "";
  password ← get_env_var B environ TStr "PAYMENT_DB_PASS" "";
  pool_size ← get_env_var B environ TInt "PAYMENT_DB_POOL_SIZE" 10;
  max_overflow ← get_env_var B environ TInt "PAYMENT_DB_MAX_OVERFLOW" 20;
  timeout ← get_env_var B environ TInt "PAYMENT_DB_TIMEOUT" 30;
  debug ← get_env_var B environ TBool "PAYMENT_DB_DEBUG" false;
  Ok {| host := host; port := port; name := name; user := user;
        password := password; pool_size := pool_size;
        max_overflow := max_overflow; timeout := timeout; debug := debug |}.
End DatabaseSettings.

Module KeycloakSettings.
Record t : Type := { jwks_uri : string; issuer_uri : string; audience : string }.
Definition class_body (B : builtins) (environ : gmap string string) : result t :=
  jwks_uri ← get_env_var B environ TStr "KEYCLOAK_JWKS_URI" "";
  issuer_uri ← get_env_var B environ TStr "KEYCLOAK_ISSUER_URI" "";
  audience ← get_env_var B environ TStr "KEYCLOAK_AUDIENCE" "";
  Ok {| jwks_uri := jwks_uri; issuer_uri := issuer_uri; audience := audience |}.
End KeycloakSettings.

Module LogSettings.
Record t : Type := { service_name : string; level : string }.
Definition class_body (B : builtins) (environ : gmap string string) : result t :=
  service_name ← get_env_var B environ TStr "PAYMENT_NAME" "payment-service";
  level ← get_env_var B environ TStr "PAYMENT_LOG_LEVEL" "INFO";
  Ok {| service_name := service_name; level := level |}.
End LogSettings.

Module TelemetrySettings.
(** The three flags are annotated [str] in the source but their defaults
    are [True], so [get_env_var] yields booleans. *)
Record t : Type := {
  otel_endpoint : string;
  enable_otel_tracing : bool;
  enable_otel_metrics : bool;
  enable_otel_logging : bool }.
Definition class_body (B : builtins) (environ : gmap string string) : result t :=
  otel_endpoint ← get_env_var B environ TStr "OTEL_GRPC_URL" "http://localhost:4317";
  enable_otel_tracing ← get_env_var B environ TBool "PAYMENT_OTEL_TRACING" true;
  enable_otel_metrics ← get_env_var B environ TBool "PAYMENT_OTEL_METRICS" true;
  enable_otel_logging ← get_env_var B environ TBool "PAYMENT_OTEL_LOGGING" true;
  Ok {| otel_endpoint := otel_endpoint;
        enable_otel_tracing := enable_otel_tracing;
        enable_otel_metrics := enable_otel_metrics;
        enable_otel_logging := enable_otel_logging |}.
End TelemetrySettings.

Module RabbitMqSettings.
Record t (B : builtins) : Type := {
  host : string;
  port : Z;
  username : string;
  password : string;
  virtual_host : string;
  exchange : string;
  dead_letter_exchange : string;
  message_ttl : Z;
  retry_count : Z;
  initial_retry_interval_ms : Z;
  max_retry_interval_ms : Z;
  retry_multiplier : float B;
  concurrent_consumers : Z;
  prefetch_count : Z;
  publisher_confirm_timeout_ms : Z }.
Arguments host {B} _.
Arguments port {B} _.
Arguments username {B} _.
Arguments password {B} _.
Arguments virtual_host {B} _.
Arguments exchange {B} _.
Arguments dead_letter_exchange {B} _.
Arguments message_ttl {B} _.
Arguments retry_count {B} _.
Arguments initial_retry_interval_ms {B} _.
Arguments max_retry_interval_ms {B} _.
Arguments retry_multiplier {B} _.
Arguments concurrent_consumers {B} _.
Arguments prefetch_count {B} _.
Arguments publisher_confirm_timeout_ms {B} _.
Definition class_body (B : builtins) (environ : gmap string string)
  : result (t B) :=
  host ← get_env_var B environ TStr "RABBITMQ_HOST" "localhost";
  port ← get_env_var B environ TInt "RABBITMQ_PORT" 5672;
  username ← get_env_var B environ TStr "RABBITMQ_USER" "guest";
  password ← get_env_var B environ TStr "RABBITMQ_PASS" "guest";
  virtual_host ← get_env_var B environ TStr "RABBITMQ_VHOST" "/";
  exchange ← get_env_var B environ TStr "RABBITMQ_EXCHANGE" "payment-service-exc";
  dead_letter_exchange ← get_env_var B environ TStr "RABBITMQ_DLQ_EXCHANGE" "dlq-exc";
  message_ttl ← get_env_var B environ TInt "RABBITMQ_MESSAGE_TTL" 30000;
  retry_count ← get_env_var B environ TInt "RABBITMQ_RETRY_COUNT" 3;
  initial_retry_interval_ms ←
    get_env_var B environ TInt "RABBITMQ_INITIAL_RETRY_INTERVAL_MS" 1000;
  max_retry_interval_ms ←
    get_env_var B environ TInt "RABBITMQ_MAX_RETRY_INTERVAL_MS" 10000;
  retry_multiplier ←
    get_env_var B environ TFloat "RABBITMQ_RETRY_MULTIPLIER" (float_2_0 B);
  concurrent_consumers ←
    get_env_var B environ TInt "RABBITMQ_CONCURRENT_CONSUMERS" 1;
  prefetch_count ← get_env_var B environ TInt "RABBITMQ_PREFETCH_COUNT" 10;
  publisher_confirm_timeout_ms ←
    get_env_var B environ TInt "RABBITMQ_PUBLISHER_CONFIRM_TIMEOUT_MS" 1000;
  Ok {| host := host; port := port; username := username; password := password;
        virtual_host := virtual_host; exchange := exchange;
        dead_letter_exchange := dead_letter_exchange;
        message_ttl := message_ttl; retry_count := retry_count;
        initial_retry_interval_ms := initial_retry_interval_ms;
        max_retry_interval_ms := max_retry_interval_ms;
        retry_multiplier := retry_multiplier;
        concurrent_consumers := concurrent_consumers;
        prefetch_count := prefetch_count;
        publisher_confirm_timeout_ms := publisher_confirm_timeout_ms |}.
End RabbitMqSettings.

Module ExternalServiceSettings.
Record t : Type := {
  learning_service_url : string; scheduling_service_url : string }.
Definition class_body (B : builtins) (environ : gmap string string) : result t :=
  learning_service_url ← get_env_var B environ TStr "LEARNING_URL" "";
  scheduling_service_url ← get_env_var B environ TStr "SCHEDULING_URL" "";
  Ok {| learning_service_url := learning_service_url;
        scheduling_service_url := scheduling_service_url |}.
End ExternalServiceSettings.

(** An instance of a class that defines no [__init__]: an identity of
    its own and no attributes of its own, so every attribute read
    resolves on the class, carried here as [class_of]. *)
Record instance (C : Type) : Type := new { oid : nat; class_of : C }.
Arguments new {C} oid class_of.
Arguments oid {C} _.
Arguments class_of {C} _.

(** The attributes of [class Settings]: one instance of each class,
    created when the class body runs. *)
Record Settings (B : builtins) : Type := {
  app : instance AppSettings.t;
  cors : instance CORSSettings.t;
  db : instance DatabaseSettings.t;
  keycloak : instance KeycloakSettings.t;
  log : instance LogSettings.t;
  telemetry : instance TelemetrySettings.t;
  rabbitmq : instance (RabbitMqSettings.t B);
  external_services : instance ExternalServiceSettings.t }.
Arguments app {B} _.
Arguments cors {B} _.
Arguments db {B} _.
Arguments keycloak {B} _.
Arguments log {B} _.
Arguments telemetry {B} _.
Arguments rabbitmq {B} _.
Arguments external_services {B} _.

(** The module's globals once it is imported: the class [Settings], the
    module-level name [settings], the cache that [lru_cache] keeps for
    [get_settings] (a function of no argument: at most one entry), and
    the next fresh object identity. *)
Record module_state (B : builtins) : Type := {
  Settings_class : Settings B;
  settings : instance (Settings B);
  get_settings_cache : option (instance (Settings B));
  next_oid : nat }.
Arguments Settings_class {B} _.
Arguments settings {B} _.
Arguments get_settings_cache {B} _.
Arguments next_oid {B} _.

(** Importing the module: the eight class bodies, then the body of
    [Settings], then [settings = Settings()]. *)
Definition import_module (B : builtins) (environ : gmap string string)
  : result (module_state B) :=
  c_app ← AppSettings.class_body B environ;
  c_cors ← CORSSettings.class_body B environ;
  c_db ← DatabaseSettings.class_body B environ;
  c_keycloak ← KeycloakSettings.class_body B environ;
  c_log ← LogSettings.class_body B environ;
  c_telemetry ← TelemetrySettings.class_body B environ;
  c_rabbitmq ← RabbitMqSettings.class_body B environ;
  c_external ← ExternalServiceSettings.class_body B environ;
  let cls :=
    {| app := new 0 c_app; cors := new 1 c_cors; db := new 2 c_db;
       keycloak := new 3 c_keycloak; log := new 4 c_log;
       telemetry := new 5 c_telemetry; rabbitmq := new 6 c_rabbitmq;
       external_services := new 7 c_external |} in
  Ok {| Settings_class := cls;
        settings := new 8 cls;
        get_settings_cache := None;
        next_oid := 9 |}.

(** [@lru_cache() def get_settings(): return Settings()] *)
Definition get_settings {B : builtins} (st : module_state B)
  : instance (Settings B) * module_state B :=
  match get_settings_cache st with
  | Some o => (o, st)
  | None =>
      let o := new (next_oid st) (Settings_class st) in
      (o, {| Settings_class := Settings_class st;
             settings := settings st;
             get_settings_cache := Some o;
             next_oid := S (next_oid st) |})
  end.

Definition get_external_service_settings {B : builtins} (st : module_state B)
  : instance ExternalServiceSettings.t * module_state B :=
  let (o, st') := get_settings st in (external_services (class_of o), st').

(** [n] successive calls of [get_settings], with the instances returned. *)
Fixpoint get_settings_calls {B : builtins} (n : nat) (st : module_state B)
  : list (instance (Settings B)) * module_state B :=
  match n with
  | O => ([], st)
  | S n' =>
      let (o, st1) := get_settings st in
      let (os, st2) := get_settings_calls n' st1 in
      (o :: os, st2)
  end.

(** *** A reference instance of the built-ins

    Used to run the model on concrete environments.  [dec_int] follows
    [int(str)] on ASCII text: surrounding whitespace is stripped, a sign is
    optional, and the digits may be grouped by single underscores.
    [dec_float] reads a plain decimal literal, sign and fraction optional,
    as the rational it denotes. *)

Definition is_space (c : ascii) : bool :=
  let n := N_of_ascii c in
  (((9 <=? n) && (n <=? 13)) || ((28 <=? n) && (n <=? 32)))%N.

Fixpoint lstrip (s : string) : string :=
  match s with
  | String c s' => if is_space c then lstrip s' else s
  | EmptyString => EmptyString
  end.

Definition strip (s : string) : string :=
  rev_string EmptyString (lstrip (rev_string EmptyString (lstrip s))).

Definition digit_val (c : ascii) : option Z :=
  let n := N_of_ascii c in
  if ((48 <=? n) && (n <=? 57))%N then Some (Z.of_N n - 48) else None.

Definition starts_with_digit (s : string) : bool :=
  match s with
  | String c _ => bool_decide (is_Some (digit_val c))
  | EmptyString => false
  end.

(** [after_digit] tells whether the previous character was a digit: an
    underscore is accepted only between two digits. *)
Fixpoint digits_from (acc : Z) (after_digit : bool) (s : string) : option Z :=
  match s with
  | EmptyString => if after_digit then Some acc else None
  | String c s' =>
      match digit_val c with
      | Some d => digits_from (10 * acc + d) true s'
      | None =>
          if Ascii.eqb c "_" && after_digit && starts_with_digit s'
          then digits_from acc false s'
          else None
      end
  end.

Definition signed {A} (parse : string -> option A) (neg : A -> A) (s : string)
  : option A :=
  match s with
  | String "-" s' => neg <$> parse s'
  | String "+" s' => parse s'
  | _ => parse s
  end.

Definition dec_int (s : string) : option Z :=
  signed (digits_from 0 false) Z.opp (strip s).

(** Digits up to the first character that is not one: their value, how
    many there were, and the rest. *)
Fixpoint digit_run (acc : Z) (n : nat) (s : string) : Z * nat * string :=
  match s with
  | EmptyString => (acc, n, s)
  | String c s' =>
      match digit_val c with
      | Some d => digit_run (10 * acc + d) (S n) s'
      | None => (acc, n, s)
      end
  end.

Definition dec_unsigned_float (s : string) : option Q :=
  let '(ip, ni, rest) := digit_run 0 0 s in
  match rest with
  | EmptyString => if Nat.eqb ni 0 then None else Some (inject_Z ip)
  | String "." frac =>
      let '(fp, nf, rest') := digit_run 0 0 frac in
      match rest' with
      | EmptyString =>
          if Nat.eqb (ni + nf) 0 then None
          else Some (inject_Z ip + inject_Z fp / inject_Z (10 ^ Z.of_nat nf))%Q
      | _ => None
      end
  | _ => None
  end.

Definition dec_float (s : string) : option Q :=
  signed dec_unsigned_float Qopp (strip s).

Definition dec_builtins : builtins :=
  {| float := Q; py_int := dec_int; py_float := dec_float; float_2_0 := 2%Q |}.

End Settings.

(** ** middleware/auth.py *)

Module Auth.
Import Py.

(** A value of type [Any] found in a token payload. *)
Inductive any (V : Type) : Type :=
| PyNone
| PyObj (v : V).
Arguments PyNone {V}.
Arguments PyObj {V} v.

(** [HTTPStatus.UNAUTHORIZED] *)
Definition UNAUTHORIZED : Z := 401.

(** [ErrorCode.INVALID_TOKEN]; error codes are carried by name. *)
Definition INVALID_TOKEN : string := "INVALID_TOKEN".

(** A response is either what the application behind the middleware
    answered, or the value of a call of [error_json_response], kept with
    its three arguments. *)
Inductive Response (R : Type) : Type :=
| downstream (r : R)
| error_json_response (message : string) (error_code : string) (status_code : Z).
Arguments downstream {R} r.
Arguments error_json_response {R} message error_code status_code.

(** What [dispatch] reads of a request: the method, [url.path],
    [headers.get], and [state.user_id], which it sets. *)
Record Request (U : Type) : Type := {
  method : string;
  path : string;
  headers_get : string -> option string;
  state_user_id : option U }.
Arguments method {U} _.
Arguments path {U} _.
Arguments headers_get {U} _.
Arguments state_user_id {U} _.

Definition set_user_id {U} (request : Request U) (u : U) : Request U :=
  {| method := method request; path := path request;
     headers_get := headers_get request; state_user_id := Some u |}.

(** The calls [dispatch] makes on its collaborators, in order. *)
Inductive event (U : Type) : Type :=
| CallNext (request : Request U)
| ValidateToken (token : string)
| LogException (e : exn).
Arguments CallNext {U} request.
Arguments ValidateToken {U} token.
Arguments LogException {U} e.

Section Dispatch.
(** [V]: the values of a payload; [U]: [uuid.UUID]; [R]: the responses of
    the application. *)
Variables V U R : Type.
(** [TokenValidator.validate_token], [uuid.UUID(hex=...)] and the rest of
    the application ([call_next]) are collaborators of the middleware. *)
Variable validate_token : string -> result (gmap string (any V)).
Variable UUID : V -> result U.
Variable call_next : Request U -> result (Response R).
(** [self.public_apis] *)
Variable public_apis : list string.

Definition await_call_next (request : Request U)
  : list (event U) * result (Response R) :=
  ([CallNext request], call_next request).

(** The two [except] clauses of the [try] block; [trace] is what ran
    before the exception. *)
Definition handle (trace : list (event U)) (e : exn)
  : list (event U) * result (Response R) :=
  match e with
  | UnauthorizedException message code =>
      (trace, Ok (error_json_response message code UNAUTHORIZED))
  | _ =>
      if is_Exception e then (trace ++ [LogException e], Raise e)
      else (trace, Raise e)
  end.

Definition dispatch (request : Request U)
  : list (event U) * result (Response R) :=
  if String.eqb (method request) "OPTIONS" then await_call_next request
  else if existsb (startswith (path request)) public_apis
  then await_call_next request
  else
    match headers_get request "Authorization" with
    | None => ([], Ok (error_json_response "Invalid token" INVALID_TOKEN UNAUTHORIZED))
    | Some token =>
        if String.eqb token "" || negb (startswith token "Bearer ")
        then ([], Ok (error_json_response "Invalid token" INVALID_TOKEN UNAUTHORIZED))
        else
          match split token "Bearer " with
          | Raise e => handle [] e
          | Ok parts =>
              match parts !! 1%nat with
              | None => handle [] (OtherException "IndexError")
              | Some token' =>
                  match validate_token token' with
                  | Raise e => handle [ValidateToken token'] e
                  | Ok payload =>
                      match payload !! "sub" with
                      | None | Some PyNone =>
                          ([ValidateToken token'],
                           Ok (error_json_response
                                 "Invalid token: user id not found"
                                 INVALID_TOKEN UNAUTHORIZED))
                      | Some (PyObj user_id) =>
                          match UUID user_id with
                          | Raise e => handle [ValidateToken token'] e
                          | Ok u =>
                              let (trace, response) :=
                                await_call_next (set_user_id request u) in
                              (ValidateToken token' :: trace, response)
                          end
                      end
                  end
              end
          end
    end.

End Dispatch.

(** The list that main.py passes as [public_apis]. *)
Definition main_public_apis : list string := ["/docs"; "/openapi"; "/health"].

Definition is_CallNext {U} (ev : event U) : bool :=
  match ev with CallNext _ => true | _ => false end.

Definition is_ValidateToken {U} (ev : event U) : bool :=
  match ev with ValidateToken _ => true | _ => false end.

End Auth.

(** ** The messaging core

    [app.infrastructure.messaging] is not among the sources: the
    components below follow sections 3 and 4 of the specification. *)

Module RetryScheduler.
Local Open Scope Q_scope.

(** Modelled from the spec: the "duration" and "interval" of sections 3
    and 4.1, whose implementation is missing.  A length of time in
    milliseconds, a non-negative rational. *)
Record duration : Type := { dur_num : N; dur_den : positive }.

Definition to_Q (d : duration) : Q := Z.of_N (dur_num d) # dur_den d.

Definition milliseconds (n : N) : duration := {| dur_num := n; dur_den := 1 |}.

(** Modelled from the spec: RetryPolicy of section 3 ("initial interval,
    multiplier, max interval, max attempts"), whose implementation is
    missing. *)
Record RetryPolicy : Type := {
  initial_interval : duration;
  multiplier : Q;
  max_interval : duration;
  max_attempts : nat }.

(** The invariant section 3 puts on a policy. *)
Definition policy_invariant (p : RetryPolicy) : Prop :=
  to_Q (initial_interval p) <= to_Q (max_interval p) /\ 1 <= multiplier p.

Fixpoint power (m : Q) (n : nat) : Q :=
  match n with
  | O => 1
  | S k => m * power m k
  end.

(** Modelled from the spec: RetryScheduler.nextDelay of section 4.1, whose
    implementation is missing: "delay = min(initial * multiplier^attempt,
    max)", attempt 0-indexed, no jitter. *)
Definition nextDelay (p : RetryPolicy) (attempt : nat) : Q :=
  Qmin (to_Q (initial_interval p) * power (multiplier p) attempt)
       (to_Q (max_interval p)).

End RetryScheduler.

Module Envelope.

(** Modelled from the spec: the header values of section 6, integers
    ([x-retry-count]) and strings ([x-failure-reason]); the implementation
    is missing. *)
Inductive header_value : Type :=
| HInt (n : nat)
| HStr (s : string).

(** Modelled from the spec: what goes over the wire (section 6), "payload
    bytes + header map"; the implementation is missing. *)
Record message : Type := {
  payload : string;
  headers : gmap string header_value }.

Definition with_header (k : string) (v : header_value) (m : message) : message :=
  {| payload := payload m; headers := <[k := v]> (headers m) |}.

End Envelope.

Module Publisher.
Import RetryScheduler Envelope.

(** Modelled from the spec: OutboundEnvelope of section 3, whose
    implementation is missing. *)
Record OutboundEnvelope : Type := {
  message_id : string;
  body : message;
  routing_key : string;
  created_at : Z }.

(** What happens to one send while the publisher waits for its
    confirmation (section 4.4): the broker acks, the broker nacks, the
    timeout elapses, or the connection is not Connected. *)
Inductive confirmation : Type :=
| BrokerAck
| BrokerNack
| ConfirmTimeout
| NotConnected.

Inductive PublishError : Type := PublishExhausted.

Inductive outcome : Type :=
| Success
| Err (e : PublishError).

Inductive event : Type :=
| SendPrimary (envelope : OutboundEnvelope) (attempt : nat)
| LogAttempt (id : string) (attempt : nat) (c : confirmation)
| Sleep (delay : Q)
| SendDeadLetter (envelope : OutboundEnvelope).

Definition failure_reason (c : confirmation) : string :=
  match c with
  | BrokerAck => "confirmed"
  | BrokerNack => "nack"
  | ConfirmTimeout => "confirm timeout"
  | NotConnected => "not connected"
  end.

Definition tag_failure (c : confirmation) (e : OutboundEnvelope) : OutboundEnvelope :=
  {| message_id := message_id e;
     body := with_header "x-failure-reason" (HStr (failure_reason c)) (body e);
     routing_key := routing_key e;
     created_at := created_at e |}.

Section Publish.
Variable policy : RetryPolicy.
(** [retry_count] of the configuration. *)
Variable retry_count : nat.
(** The broker, as seen from one call: what the send of each attempt
    meets. *)
Variable confirm : nat -> confirmation.

(** Modelled from the spec: the protocol of Publisher.publish (section
    4.4), whose implementation is missing.  [remaining] is
    [retry_count - attempt]: it is [0] exactly when
    [attempt == retry_count]. *)
Fixpoint publish_from (remaining attempt : nat) (envelope : OutboundEnvelope)
  : list event * outcome :=
  let c := confirm attempt in
  let sent := [SendPrimary envelope attempt; LogAttempt (message_id envelope) attempt c] in
  match c with
  | BrokerAck => (sent, Success)
  | _ =>
      match remaining with
      | O => (sent ++ [SendDeadLetter (tag_failure c envelope)], Err PublishExhausted)
      | S remaining' =>
          let (trace, r) := publish_from remaining' (S attempt) envelope in
          (sent ++ Sleep (nextDelay policy attempt) :: trace, r)
      end
  end.

Definition publish (envelope : OutboundEnvelope) : list event * outcome :=
  publish_from retry_count 0 envelope.

End Publish.

End Publisher.

Module ConsumerPool.
Import RetryScheduler Envelope.

(** Modelled from the spec: InboundDelivery of section 3, whose
    implementation is missing. *)
Record InboundDelivery : Type := {
  delivery_tag : nat;
  content : message }.

(** "retry-count header (int, defaults to 0 if absent)" *)
Definition retry_count_of (m : message) : nat :=
  match headers m !! "x-retry-count" with
  | Some (HInt n) => n
  | _ => O
  end.

(** What a handler does with a delivery: it returns Ok, returns Err, or
    throws. *)
Inductive handler_result : Type :=
| HandlerOk
| HandlerErr
| HandlerThrows.

(** Modelled from the spec: the broker as sections 4.2 and 4.5 describe
    it, the implementation being missing.  [primary_queue]: the messages
    ready in the primary queue; [unacked]: the deliveries a consumer holds;
    [holding_queue]: the short-TTL holding queue, each message with the
    delay after which it dead-letters back into the primary queue;
    [dead_letter_queue]: the queue bound to the dead-letter exchange. *)
Record broker : Type := {
  primary_queue : list message;
  unacked : list InboundDelivery;
  holding_queue : list (Q * message);
  dead_letter_queue : list message;
  next_tag : nat }.

Inductive event : Type :=
| Handle (d : InboundDelivery) (retryCount : nat)
| LogHandlerError (tag : nat)
| Nack (tag : nat) (requeue : bool)
| Republish (m : message) (delay : Q)
| Ack (tag : nat)
| DeadLetter (m : message)
| Bounce (m : message).

Definition remove_tag (tag : nat) (ds : list InboundDelivery) : list InboundDelivery :=
  filter (fun d => delivery_tag d ≠ tag) ds.

(** Acknowledging removes the delivery from the primary queue for good. *)
Definition ack (tag : nat) (b : broker) : broker :=
  {| primary_queue := primary_queue b;
     unacked := remove_tag tag (unacked b);
     holding_queue := holding_queue b;
     dead_letter_queue := dead_letter_queue b;
     next_tag := next_tag b |}.

(** Publishing to the holding queue with a delay. *)
Definition publish_delayed (delay : Q) (m : message) (b : broker) : broker :=
  {| primary_queue := primary_queue b;
     unacked := unacked b;
     holding_queue := holding_queue b ++ [(delay, m)];
     dead_letter_queue := dead_letter_queue b;
     next_tag := next_tag b |}.

(** Publishing to the dead-letter exchange. *)
Definition publish_dead_letter (m : message) (b : broker) : broker :=
  {| primary_queue := primary_queue b;
     unacked := unacked b;
     holding_queue := holding_queue b;
     dead_letter_queue := dead_letter_queue b ++ [m];
     next_tag := next_tag b |}.

Section Consume.
Variable policy : RetryPolicy.
Variable retry_count : nat.
Variable handler : InboundDelivery -> handler_result.

(** Modelled from the spec: the per-delivery protocol of section 4.5,
    steps 1 to 5, whose implementation is missing. *)
Definition process (d : InboundDelivery) (b : broker) : list event * broker :=
  let retryCount := retry_count_of (content d) in
  let tag := delivery_tag d in
  let failed (pre : list event) :=
    if (retryCount <? retry_count)%nat then
      let copy := with_header "x-retry-count" (HInt (retryCount + 1)) (content d) in
      let delay := nextDelay policy retryCount in
      (pre ++ [Nack tag false; Republish copy delay; Ack tag],
       ack tag (publish_delayed delay copy b))
    else
      let dead := with_header "x-failure-reason" (HStr "handler failed") (content d) in
      (pre ++ [DeadLetter dead; Ack tag], ack tag (publish_dead_letter dead b))
  in
  match handler d with
  | HandlerOk => ([Handle d retryCount; Ack tag], ack tag b)
  | HandlerErr => failed [Handle d retryCount]
  | HandlerThrows => failed [Handle d retryCount; LogHandlerError tag]
  end.

(** One move of the system: a slot receives the message at the head of the
    primary queue and processes it; when the primary queue is empty, the
    oldest message of the holding queue expires and dead-letters back into
    the primary queue; when both are empty nothing happens. *)
Definition step (b : broker) : list event * broker :=
  match primary_queue b with
  | m :: rest =>
      let d := {| delivery_tag := next_tag b; content := m |} in
      process d {| primary_queue := rest;
                   unacked := unacked b ++ [d];
                   holding_queue := holding_queue b;
                   dead_letter_queue := dead_letter_queue b;
                   next_tag := S (next_tag b) |}
  | [] =>
      match holding_queue b with
      | (_, m) :: rest =>
          ([Bounce m],
           {| primary_queue := [m];
              unacked := unacked b;
              holding_queue := rest;
              dead_letter_queue := dead_letter_queue b;
              next_tag := next_tag b |})
      | [] => ([], b)
      end
  end.

Fixpoint run (n : nat) (b : broker) : list event * broker :=
  match n with
  | O => ([], b)
  | S n' =>
      let (t1, b1) := step b in
      let (t2, b2) := run n' b1 in
      (t1 ++ t2, b2)
  end.

End Consume.

(** A broker holding one message, ready in the primary queue, and nothing
    else; [tag] is the next delivery tag. *)
Definition one_ready (m : message) (tag : nat) : broker :=
  {| primary_queue := [m]; unacked := []; holding_queue := [];
     dead_letter_queue := []; next_tag := tag |}.

Definition one_message (m : message) : broker := one_ready m 0.

(** The values of [x-retry-count] the handler saw, in order. *)
Definition seen_retry_counts (t : list event) : list nat :=
  omap (fun ev => match ev with Handle _ k => Some k | _ => None end) t.

(** The values of [x-retry-count] on the copies re-published, the
    messages routed to the dead-letter exchange and the tags acknowledged,
    each in the order of the trace. *)
Definition republished_counts (t : list event) : list nat :=
  omap (fun ev => match ev with Republish m _ => Some (retry_count_of m) | _ => None end) t.

Definition dead_letters (t : list event) : list message :=
  omap (fun ev => match ev with DeadLetter m => Some m | _ => None end) t.

Definition acked (t : list event) : list nat :=
  omap (fun ev => match ev with Ack tag => Some tag | _ => None end) t.

(** A broker at rest: nothing ready, nothing held by a consumer, nothing
    waiting in the holding queue. *)
Definition at_rest (dead : list message) (tag : nat) : broker :=
  {| primary_queue := []; unacked := []; holding_queue := [];
     dead_letter_queue := dead; next_tag := tag |}.

End ConsumerPool.

Module ApplicationManager.
Import Py.

(** The steps of startup, as the lifespan observes them. *)
Inductive step : Type :=
| SupervisorConnect
| TopologyDeclare
| ConsumersStart.

(** What each collaborator does when asked: [ConnectionSupervisor.connect]
    (after its own retries), [Topology.declare], and the start of the
    registered consumers. *)
Record collaborators : Type := {
  connect : result unit;
  declare : result unit;
  start_consumers : result unit }.

(** Modelled from the spec: RabbitMqApplicationManager.startup of section
    4.6, whose module app.infrastructure.messaging.manager is missing:
    "ConnectionSupervisor.connect() -> Topology.declare() -> ConsumerPool
    starts all registered consumers", a failure ending the sequence. *)
Definition startup (c : collaborators) : list step * result unit :=
  match connect c with
  | Raise e => ([SupervisorConnect], Raise e)
  | Ok _ =>
      match declare c with
      | Raise e => ([SupervisorConnect; TopologyDeclare], Raise e)
      | Ok _ =>
          ([SupervisorConnect; TopologyDeclare; ConsumersStart],
           start_consumers c)
      end
  end.

End ApplicationManager.

(** ** main.py *)

Module Main.
Import Py.

Inductive event : Type :=
| EngineConnect
| ConnExecute (statement : string)
| LoggerInfo (msg : string)
| LoggerError (msg : string) (e : exn)
| ManagerInit
| ManagerStartup (s : ApplicationManager.step)
| SetAppState
| Yield
| ManagerShutdown
| EngineDispose.

(** What the world outside the lifespan does when called: the database
    engine, the constructor of the manager, the manager's collaborators,
    and the two calls of the shutdown half. *)
Record world : Type := {
  engine_connect : result unit;
  conn_execute : result unit;
  manager_init : result unit;
  broker : ApplicationManager.collaborators;
  manager_shutdown : result unit;
  engine_dispose : result unit }.

(** A computation that leaves a trace of events and returns or raises. *)
Record traced (A : Type) : Type := Traced {
  trace : list event;
  outcome : result A }.
Arguments Traced {A} trace outcome.
Arguments trace {A} _.
Arguments outcome {A} _.

Definition emit (ev : event) : traced unit := Traced [ev] (Ok tt).

Definition call (ev : event) (r : result unit) : traced unit := Traced [ev] r.

Definition raise {A} (e : exn) : traced A := Traced [] (Raise e).

#[global] Instance traced_bind : MBind traced := fun A B k c =>
  match outcome c with
  | Ok a => Traced (trace c ++ trace (k a)) (outcome (k a))
  | Raise e => Traced (trace c) (Raise e)
  end.

(** [try: c  except Exception as e: h e] *)
Definition try_except_Exception {A} (c : traced A) (h : exn -> traced A)
  : traced A :=
  match outcome c with
  | Raise e =>
      if is_Exception e
      then Traced (trace c ++ trace (h e)) (outcome (h e))
      else c
  | Ok _ => c
  end.

Definition manager_startup (w : world) : traced unit :=
  let (steps, r) := ApplicationManager.startup (broker w) in
  Traced (ManagerStartup <$> steps) r.

(** The lifespan up to its [yield]: it returns when the application may
    start serving, and raises when startup is aborted. *)
Definition lifespan_startup (w : world) : traced unit :=
  _ ← try_except_Exception
        (_ ← call EngineConnect (engine_connect w);
         _ ← call (ConnExecute "SELECT 1") (conn_execute w);
         emit (LoggerInfo "Database connected successfully"))
        (fun e =>
           _ ← emit (LoggerError "Database connection failed" e);
           raise e);
  _ ← try_except_Exception
        (_ ← call ManagerInit (manager_init w);
         _ ← manager_startup w;
         emit SetAppState)
        (fun e =>
           _ ← emit (LoggerError "RabbitMQ startup failed" e);
           raise e);
  _ ← emit (LoggerInfo "Application startup complete");
  emit Yield.

(** The lifespan after its [yield]. *)
Definition lifespan_shutdown (w : world) : traced unit :=
  _ ← emit (LoggerInfo "Application shutdown initiated");
  _ ← call ManagerShutdown (manager_shutdown w);
  _ ← emit (LoggerInfo "RabbitMQ application manager shutdown complete");
  _ ← call EngineDispose (engine_dispose w);
  _ ← emit (LoggerInfo "Database engine disposed");
  emit (LoggerInfo "Application shutdown complete").

(** The exception of the first call that fails, in the order the lifespan
    makes them. *)
Definition failure (r : result unit) : option exn :=
  match r with
  | Raise e => Some e
  | Ok _ => None
  end.

Definition first_failure (w : world) : option exn :=
  foldr (fun r later => match failure r with Some e => Some e | None => later end)
    None
    [engine_connect w; conn_execute w; manager_init w;
     ApplicationManager.connect (broker w);
     ApplicationManager.declare (broker w);
     ApplicationManager.start_consumers (broker w)].

(** The manager's steps among the events of a trace. *)
Definition manager_steps (t : list event) : list ApplicationManager.step :=
  omap (fun ev => match ev with ManagerStartup s => Some s | _ => None end) t.

End Main.

(** ** Sessions of the database (infrastructure/database/config.py, and
       the readiness probe of main.py) *)

Module Session.
Import Py.

(** What is done with a session of [SessionLocal]. *)
Inductive event : Type :=
| Enter
| Execute (statement : string)
| YieldSession
| Rollback
| Exit.

(** What the database answers to each call on the session. *)
Record database : Type := {
  enter : result unit;
  execute : result unit;
  rollback : result unit;
  exit : result unit }.

(** [async with SessionLocal() as session: body].  Once the context is
    entered its exit runs, whatever the body did; the exit does not
    swallow the exception of the body, and an exception of the exit itself
    takes its place. *)
Definition async_with {A} (db : database) (body : list event * result A)
  : list event * result A :=
  match enter db with
  | Raise e => ([Enter], Raise e)
  | Ok _ =>
      let (trace, r) := body in
      (Enter :: trace ++ [Exit],
       match exit db with
       | Ok _ => r
       | Raise e => Raise e
       end)
  end.

(** [get_db_session]: a generator that yields the session once.  [user]
    is what happens at the [yield]: the code that received the session
    finishes, or an exception is thrown back into the generator. *)
Definition get_db_session (db : database) (user : result unit)
  : list event * result unit :=
  async_with db
    match user with
    | Ok _ => ([YieldSession], Ok tt)
    | Raise e =>
        if is_Exception e then
          ([YieldSession; Rollback],
           match rollback db with
           | Ok _ => Raise e
           | Raise e' => Raise e'
           end)
        else ([YieldSession], Raise e)
    end.

(** [liveness] and [readiness] of main.py; the answers are dictionaries. *)
Definition liveness : gmap string string := {[ "status" := "alive" ]}.

Definition readiness (db : database) : list event * result (gmap string string) :=
  let (trace, r) := async_with db ([Execute "SELECT 1"], execute db) in
  match r with
  | Ok _ => (trace, Ok {[ "status" := "ready" ]})
  | Raise e =>
      if is_Exception e then (trace, Ok {[ "status" := "not ready" ]})
      else (trace, Raise e)
  end.

End Session.

(** ** infrastructure/telemetry/logging.py *)

Module Logging.

(** A value found in a dictionary of extras: a nested dictionary, given
    by its items in order, or anything else. *)
#[warnings="-register-all"]
Inductive pyobj (A : Type) : Type :=
| Leaf (a : A)
| Dict (items : list (string * pyobj A)).
Arguments Leaf {A} a.
Arguments Dict {A} items.

(** [c in chars] *)
Fixpoint char_in (c : ascii) (chars : string) : bool :=
  match chars with
  | EmptyString => false
  | String c' chars' => Ascii.eqb c c' || char_in c chars'
  end.

(** [s.lstrip(chars)]: the leading characters that belong to [chars] are
    removed, one by one. *)
Fixpoint lstrip (s chars : string) : string :=
  match s with
  | EmptyString => EmptyString
  | String c s' => if char_in c chars then lstrip s' chars else s
  end.

(** [f"{parent_key}{sep}{k}" if parent_key else k] *)
Definition new_key (parent_key sep k : string) : string :=
  match parent_key with
  | EmptyString => k
  | _ => parent_key ++ sep ++ k
  end.

Section Flatten.
Context {A : Type}.

(** [flatten_dict] applied to the dictionary [v].  The dictionary [items]
    is built by the loop over [d.items()]: a nested dictionary goes
    through [items.update], any other value through [items[...] = v].  The
    function is only ever called on dictionaries. *)
Fixpoint flatten_obj (v : pyobj A) (parent_key sep : string) : gmap string A :=
  match v with
  | Leaf _ => ∅
  | Dict d =>
      (fix loop (d : list (string * pyobj A)) (items : gmap string A)
         : gmap string A :=
         match d with
         | [] => items
         | (k, v) :: rest =>
             let nk := new_key parent_key sep k in
             loop rest
               match v with
               | Dict _ => flatten_obj v nk sep ∪ items
               | Leaf a => <[lstrip nk "extra." := a]> items
               end
         end) d ∅
  end.

Definition flatten_dict (d : list (string * pyobj A)) (parent_key sep : string)
  : gmap string A :=
  flatten_obj (Dict d) parent_key sep.

(** The loop of [flatten_dict], from the items it has built so far. *)
Fixpoint flatten_loop (d : list (string * pyobj A)) (parent_key sep : string)
    (items : gmap string A) : gmap string A :=
  match d with
  | [] => items
  | (k, v) :: rest =>
      let nk := new_key parent_key sep k in
      flatten_loop rest parent_key sep
        match v with
        | Dict val => flatten_dict val nk sep ∪ items
        | Leaf a => <[lstrip nk "extra." := a]> items
        end
  end.

End Flatten.

End Logging.

(** ** Vocabulary of the statements *)

(** The value a setting takes: the conversion of the variable's text when
    the variable is set and the text convertible, the default otherwise. *)
Definition from_env {A} (environ : gmap string string)
    (conv : string -> option A) (name : string) (d : A) : A :=
  default d (environ !! name ≫= conv).

(** An environment that breaks every bound section 6 of the specification
    puts on the retry settings. *)
Definition invalid_environ : gmap string string :=
  list_to_map
    [("RABBITMQ_RETRY_COUNT", "-1");
     ("RABBITMQ_INITIAL_RETRY_INTERVAL_MS", "5000");
     ("RABBITMQ_MAX_RETRY_INTERVAL_MS", "10");
     ("RABBITMQ_RETRY_MULTIPLIER", "0.5");
     ("RABBITMQ_CONCURRENT_CONSUMERS", "0");
     ("RABBITMQ_PREFETCH_COUNT", "0")].

(** Three requests, and collaborators for running [dispatch] on them: a
    preflight, a probe of a public path, and a call of the payments API
    that carries no Authorization header. *)
Definition sample_request (method path : string) : Auth.Request string :=
  {| Auth.method := method; Auth.path := path;
     Auth.headers_get := fun _ => None; Auth.state_user_id := None |}.

Definition sample_validator (token : string)
  : Py.result (gmap string (Auth.any string)) :=
  Py.Raise (Py.UnauthorizedException "Token expired" "INVALID_TOKEN").

Definition sample_app (request : Auth.Request string)
  : Py.result (Auth.Response string) :=
  Py.Ok (Auth.downstream (Auth.path request)).

Definition sample_dispatch : Auth.Request string -> _ :=
  Auth.dispatch string string string sample_validator Py.Ok sample_app
    Auth.main_public_apis.

(** The policy of the scenario in section 8 of the specification:
    initial 100 ms, multiplier 2, maximum 1000 ms, two retries. *)
Definition scenario_policy : RetryScheduler.RetryPolicy :=
  {| RetryScheduler.initial_interval := RetryScheduler.milliseconds 100;
     RetryScheduler.multiplier := 2;
     RetryScheduler.max_interval := RetryScheduler.milliseconds 1000;
     RetryScheduler.max_attempts := 2 |}.

(** The attempt numbers of the sends on the primary exchange, the delays
    slept, and the envelopes sent to the dead-letter exchange, each in the
    order of the trace. *)
Definition sent_attempts (t : list Publisher.event) : list nat :=
  omap (fun ev => match ev with Publisher.SendPrimary _ a => Some a | _ => None end) t.

Definition sent_envelopes (t : list Publisher.event)
  : list Publisher.OutboundEnvelope :=
  omap (fun ev => match ev with Publisher.SendPrimary e _ => Some e | _ => None end) t.

Definition slept (t : list Publisher.event) : list Q :=
  omap (fun ev => match ev with Publisher.Sleep d => Some d | _ => None end) t.

Definition dead_lettered (t : list Publisher.event)
  : list Publisher.OutboundEnvelope :=
  omap (fun ev => match ev with Publisher.SendDeadLetter e => Some e | _ => None end) t.

(** A broker that never confirms, and an envelope to publish. *)
Definition silent_broker (attempt : nat) : Publisher.confirmation :=
  Publisher.ConfirmTimeout.

Definition sample_envelope : Publisher.OutboundEnvelope :=
  {| Publisher.message_id := "7f9c2ba4";
     Publisher.body := {| Envelope.payload := "paid"; Envelope.headers := ∅ |};
     Publisher.routing_key := "payment.completed";
     Publisher.created_at := 0 |}.

(** A handler that fails on every delivery, and a message as a producer
    publishes it, without retry header. *)
Definition failing_handler (d : ConsumerPool.InboundDelivery)
  : ConsumerPool.handler_result :=
  ConsumerPool.HandlerErr.

Definition sample_message : Envelope.message :=
  {| Envelope.payload := "charge #42"; Envelope.headers := ∅ |}.

(** [header.split(sep="Bearer ")[1]], the token [dispatch] hands to the
    validator; [None] stands for the IndexError of a list too short. *)
Definition bearer_token (header : string) : option string :=
  match Py.split header "Bearer " with
  | Py.Ok parts => parts !! 1%nat
  | Py.Raise _ => None
  end.

(** [sep in s] *)
Fixpoint contains (s sep : string) : bool :=
  Py.startswith s sep
  || match s with
     | String _ s' => contains s' sep
     | EmptyString => false
     end.

(** What [dispatch] does with the validator's answer, for a request that
    is neither a preflight nor public and carries the bearer token
    [token]. *)
Definition after_validation {V U R : Type}
    (UUID : V -> Py.result U)
    (call_next : Auth.Request U -> Py.result (Auth.Response R))
    (request : Auth.Request U) (token : string)
    (validated : Py.result (gmap string (Auth.any V)))
  : list (Auth.event U) * Py.result (Auth.Response R) :=
  match validated with
  | Py.Raise e => Auth.handle U R [Auth.ValidateToken token] e
  | Py.Ok payload =>
      match payload !! "sub" with
      | None | Some Auth.PyNone =>
          ([Auth.ValidateToken token],
           Py.Ok (Auth.error_json_response "Invalid token: user id not found"
                    Auth.INVALID_TOKEN Auth.UNAUTHORIZED))
      | Some (Auth.PyObj user_id) =>
          match UUID user_id with
          | Py.Raise e => Auth.handle U R [Auth.ValidateToken token] e
          | Py.Ok u =>
              ([Auth.ValidateToken token; Auth.CallNext (Auth.set_user_id request u)],
               call_next (Auth.set_user_id request u))
          end
      end
  end.

(** A request of the payments API carrying an Authorization header, and
    validators giving each of the answers [dispatch] distinguishes. *)
Definition bearer_request (header : string) : Auth.Request string :=
  {| Auth.method := "GET"; Auth.path := "/api/v1/payments";
     Auth.headers_get :=
       fun name => if String.eqb name "Authorization" then Some header else None;
     Auth.state_user_id := None |}.

Definition accepting_validator (token : string)
  : Py.result (gmap string (Auth.any string)) :=
  Py.Ok {[ "sub" := Auth.PyObj "0b54e9c0" ]}.

Definition anonymous_validator (token : string)
  : Py.result (gmap string (Auth.any string)) :=
  Py.Ok ∅.

Definition broken_validator (token : string)
  : Py.result (gmap string (Auth.any string)) :=
  Py.Raise (Py.OtherException "JWKS endpoint unreachable").

(** Worlds for running the lifespan: one where every call succeeds, one
    where the database refuses the connection, and one where stopping the
    manager fails. *)
Definition healthy_world : Main.world :=
  {| Main.engine_connect := Py.Ok tt;
     Main.conn_execute := Py.Ok tt;
     Main.manager_init := Py.Ok tt;
     Main.broker :=
       {| ApplicationManager.connect := Py.Ok tt;
          ApplicationManager.declare := Py.Ok tt;
          ApplicationManager.start_consumers := Py.Ok tt |};
     Main.manager_shutdown := Py.Ok tt;
     Main.engine_dispose := Py.Ok tt |}.

Definition database_down : Main.world :=
  {| Main.engine_connect := Py.Raise (Py.OtherException "connection refused");
     Main.conn_execute := Py.Ok tt;
     Main.manager_init := Py.Ok tt;
     Main.broker := Main.broker healthy_world;
     Main.manager_shutdown := Py.Ok tt;
     Main.engine_dispose := Py.Ok tt |}.

Definition stuck_manager : Main.world :=
  {| Main.engine_connect := Py.Ok tt;
     Main.conn_execute := Py.Ok tt;
     Main.manager_init := Py.Ok tt;
     Main.broker := Main.broker healthy_world;
     Main.manager_shutdown := Py.Raise (Py.OtherException "channel closed");
     Main.engine_dispose := Py.Ok tt |}.


(** Databases for running the session code: one that answers every call,
    and one whose statements fail. *)
Definition database_up : Session.database :=
  {| Session.enter := Py.Ok tt; Session.execute := Py.Ok tt;
     Session.rollback := Py.Ok tt; Session.exit := Py.Ok tt |}.

Definition database_failing : Session.database :=
  {| Session.enter := Py.Ok tt;
     Session.execute := Py.Raise (Py.OtherException "connection lost");
     Session.rollback := Py.Ok tt; Session.exit := Py.Ok tt |}.

(** The first character of [key] is one of those [lstrip("extra.")]
    removes. *)
Definition starts_with_stripped (key : string) : bool :=
  match key with
  | String c _ => Logging.char_in c "extra."
  | EmptyString => false
  end.

(** A flat dictionary of extras, as [flatten_dict] receives it. *)
Definition leaves {A} (d : list (string * A)) : list (string * Logging.pyobj A) :=
  prod_map id Logging.Leaf <$> d.

(** No key of [items] begins with a character that [lstrip] removes. *)
Definition keys_stripped {A} (items : gmap string A) : Prop :=
  forall key, starts_with_stripped key = true -> items !! key = None.

(** [sep.join(pieces)] *)
Fixpoint join (sep : string) (pieces : list string) : string :=
  match pieces with
  | [] => ""
  | [piece] => piece
  | piece :: rest => piece ++ sep ++ join sep rest
  end.

(** The cache of [get_settings], when filled, holds an instance of the
    class [Settings] of the module. *)
Definition cache_consistent {B} (st : Settings.module_state B) : Prop :=
  forall o, Settings.get_settings_cache st = Some o ->
            Settings.class_of o = Settings.Settings_class st.

(** The requests handed to the downstream handler and the tokens handed
    to the validator, in the order of the trace. *)
Definition handed_on {U} (t : list (Auth.event U)) : list (Auth.Request U) :=
  omap (fun ev => match ev with Auth.CallNext r => Some r | _ => None end) t.

Definition validated_tokens {U} (t : list (Auth.event U)) : list string :=
  omap (fun ev => match ev with Auth.ValidateToken k => Some k | _ => None end) t.

(** * Properties *)

(** ** Configuration (settings.py) *)

Section SettingsFacts.
Import Py Settings.
Variable B : builtins.
Variable environ : gmap string string.

Lemma get_env_var_Ok (t : pytype) (name : string) (d : denote B t) :
  get_env_var B environ t name d
  = Ok (default d (environ !! name ≫= converted B t)).
Proof.
  unfold get_env_var.
  destruct (environ !! name) as [value|]; [|reflexivity].
  destruct t; simpl; try reflexivity.
  - destruct (py_int B value); reflexivity.
  - destruct (py_float B value); reflexivity.
Qed.

Lemma split_from_nonempty (sep : string) (s : string) (skip : nat) (cur : string) :
  split_from sep skip cur s ≠ [].
Proof.
  revert skip cur.
  induction s as [|c s IH]; intros skip cur; cbn [split_from].
  - intros H; inversion H.
  - destruct skip; [|apply IH].
    destruct (startswith (String c s) sep); [intros H; inversion H|apply IH].
Qed.

End SettingsFacts.

(** C9.  With a bool default and the variable set, [get_env_var] returns
    [True] exactly when the lowercased value is one of "true", "1", "t",
    "yes", "y", whatever the default; the default is the result only when
    the variable is unset.  For every type of default the call returns and
    never raises: the converted value when the variable is set and
    convertible, the default otherwise. *)
Theorem get_env_var_total :
  (forall B environ name (d : bool),
      Settings.get_env_var B environ Settings.TBool name d
      = Py.Ok (match environ !! name with
               | Some value =>
                   bool_decide (Py.lower value ∈ ["true"; "1"; "t"; "yes"; "y"])
               | None => d
               end))
  /\ (forall B environ t name (d : Settings.denote B t),
         Settings.get_env_var B environ t name d
         = Py.Ok (match environ !! name with
                  | Some value =>
                      match Settings.converted B t value with
                      | Some x => x
                      | None => d
                      end
                  | None => d
                  end)).
Proof.
  split.
  - intros B environ name d. rewrite get_env_var_Ok.
    destruct (environ !! name); reflexivity.
  - intros B environ t name d. rewrite get_env_var_Ok.
    destruct (environ !! name) as [value|]; simpl; [|reflexivity].
    destruct (Settings.converted B t value); reflexivity.
Qed.

(** C10.  Each list field of CORSSettings is the comma-split of the raw
    value of its variable, and of the empty string when the variable is
    unset: then it is the one-element list holding the empty string.  It
    is never the empty list. *)
Theorem cors_lists_never_empty :
  forall B environ,
    let raw name := default "" (environ !! name) in
    exists c,
      Settings.CORSSettings.class_body B environ = Py.Ok c
      /\ Py.split (raw "ALLOWED_ORIGINS") ","
         = Py.Ok (Settings.CORSSettings.allow_origins c)
      /\ Py.split (raw "ALLOWED_METHODS") ","
         = Py.Ok (Settings.CORSSettings.allow_methods c)
      /\ Py.split (raw "ALLOWED_HEADERS") ","
         = Py.Ok (Settings.CORSSettings.allow_headers c)
      /\ Settings.CORSSettings.allow_origins c
         = match environ !! "ALLOWED_ORIGINS" with
           | None => [""]
           | Some _ => Settings.CORSSettings.allow_origins c
           end
      /\ Settings.CORSSettings.allow_methods c
         = match environ !! "ALLOWED_METHODS" with
           | None => [""]
           | Some _ => Settings.CORSSettings.allow_methods c
           end
      /\ Settings.CORSSettings.allow_headers c
         = match environ !! "ALLOWED_HEADERS" with
           | None => [""]
           | Some _ => Settings.CORSSettings.allow_headers c
           end
      /\ Settings.CORSSettings.allow_origins c <> []
      /\ Settings.CORSSettings.allow_methods c <> []
      /\ Settings.CORSSettings.allow_headers c <> [].
Proof.
  intros B environ raw.
  unfold Settings.CORSSettings.class_body.
  rewrite !get_env_var_Ok. simpl.
  eexists. split; [reflexivity|]. simpl.
  repeat split; try apply split_from_nonempty.
  - unfold raw. destruct (environ !! "ALLOWED_ORIGINS"); reflexivity.
  - unfold raw. destruct (environ !! "ALLOWED_METHODS"); reflexivity.
  - unfold raw. destruct (environ !! "ALLOWED_HEADERS"); reflexivity.
  - destruct (environ !! "ALLOWED_ORIGINS"); reflexivity.
  - destruct (environ !! "ALLOWED_METHODS"); reflexivity.
  - destruct (environ !! "ALLOWED_HEADERS"); reflexivity.
Qed.

Section ImportFacts.
Import Py Settings.
Variable B : builtins.
Variable environ : gmap string string.

Ltac class_body_returns :=
  rewrite !get_env_var_Ok; simpl; eexists; reflexivity.

Lemma AppSettings_returns : exists c, AppSettings.class_body B environ = Ok c.
Proof. unfold AppSettings.class_body. class_body_returns. Qed.

Lemma CORSSettings_returns : exists c, CORSSettings.class_body B environ = Ok c.
Proof. unfold CORSSettings.class_body. class_body_returns. Qed.

Lemma DatabaseSettings_returns : exists c, DatabaseSettings.class_body B environ = Ok c.
Proof. unfold DatabaseSettings.class_body. class_body_returns. Qed.

Lemma KeycloakSettings_returns : exists c, KeycloakSettings.class_body B environ = Ok c.
Proof. unfold KeycloakSettings.class_body. class_body_returns. Qed.

Lemma LogSettings_returns : exists c, LogSettings.class_body B environ = Ok c.
Proof. unfold LogSettings.class_body. class_body_returns. Qed.

Lemma TelemetrySettings_returns : exists c, TelemetrySettings.class_body B environ = Ok c.
Proof. unfold TelemetrySettings.class_body. class_body_returns. Qed.

Lemma ExternalServiceSettings_returns :
  exists c, ExternalServiceSettings.class_body B environ = Ok c.
Proof. unfold ExternalServiceSettings.class_body. class_body_returns. Qed.

Lemma RabbitMqSettings_returns :
  exists c,
    RabbitMqSettings.class_body B environ = Ok c
    /\ RabbitMqSettings.retry_count c = from_env environ (py_int B) "RABBITMQ_RETRY_COUNT" 3
    /\ RabbitMqSettings.initial_retry_interval_ms c
       = from_env environ (py_int B) "RABBITMQ_INITIAL_RETRY_INTERVAL_MS" 1000
    /\ RabbitMqSettings.max_retry_interval_ms c
       = from_env environ (py_int B) "RABBITMQ_MAX_RETRY_INTERVAL_MS" 10000
    /\ RabbitMqSettings.retry_multiplier c
       = from_env environ (py_float B) "RABBITMQ_RETRY_MULTIPLIER" (float_2_0 B)
    /\ RabbitMqSettings.concurrent_consumers c
       = from_env environ (py_int B) "RABBITMQ_CONCURRENT_CONSUMERS" 1
    /\ RabbitMqSettings.prefetch_count c
       = from_env environ (py_int B) "RABBITMQ_PREFETCH_COUNT" 10.
Proof.
  unfold RabbitMqSettings.class_body. rewrite !get_env_var_Ok. simpl.
  eexists. split; [reflexivity|]. repeat split.
Qed.

(** Importing the module returns, whatever the environment. *)
Lemma import_module_returns :
  exists st,
    import_module B environ = Ok st
    /\ RabbitMqSettings.class_body B environ
       = Ok (class_of (rabbitmq (Settings_class st)))
    /\ class_of (settings st) = Settings_class st
    /\ oid (settings st) = 8%nat
    /\ get_settings_cache st = None
    /\ next_oid st = 9%nat.
Proof.
  unfold import_module.
  destruct AppSettings_returns as [c1 ->].
  destruct CORSSettings_returns as [c2 ->].
  destruct DatabaseSettings_returns as [c3 ->].
  destruct KeycloakSettings_returns as [c4 ->].
  destruct LogSettings_returns as [c5 ->].
  destruct TelemetrySettings_returns as [c6 ->].
  destruct RabbitMqSettings_returns as [c7 [-> _]].
  destruct ExternalServiceSettings_returns as [c8 ->].
  simpl. eexists. repeat split.
Qed.

End ImportFacts.

(** C1, as the code has it.  Nothing is validated when the settings are
    built: importing the module returns for every environment, each retry
    setting being the conversion of its variable when the variable is set
    and its text convertible, and the default otherwise.  No bound on the
    values is enforced. *)
Theorem settings_built_without_validation :
  forall B environ,
  exists st,
    Settings.import_module B environ = Py.Ok st
    /\ let r := Settings.class_of (Settings.rabbitmq (Settings.Settings_class st)) in
       Settings.RabbitMqSettings.retry_count r
       = from_env environ (Settings.py_int B) "RABBITMQ_RETRY_COUNT" 3
       /\ Settings.RabbitMqSettings.initial_retry_interval_ms r
          = from_env environ (Settings.py_int B) "RABBITMQ_INITIAL_RETRY_INTERVAL_MS" 1000
       /\ Settings.RabbitMqSettings.max_retry_interval_ms r
          = from_env environ (Settings.py_int B) "RABBITMQ_MAX_RETRY_INTERVAL_MS" 10000
       /\ Settings.RabbitMqSettings.retry_multiplier r
          = from_env environ (Settings.py_float B) "RABBITMQ_RETRY_MULTIPLIER"
              (Settings.float_2_0 B)
       /\ Settings.RabbitMqSettings.concurrent_consumers r
          = from_env environ (Settings.py_int B) "RABBITMQ_CONCURRENT_CONSUMERS" 1
       /\ Settings.RabbitMqSettings.prefetch_count r
          = from_env environ (Settings.py_int B) "RABBITMQ_PREFETCH_COUNT" 10.
Proof.
  intros B environ.
  destruct (import_module_returns B environ) as (st & Hst & Hr & _).
  destruct (RabbitMqSettings_returns B environ) as (c & Hc & Hfields).
  exists st. split; [exact Hst|].
  rewrite Hc in Hr. injection Hr as <-. exact Hfields.
Qed.

(** C1 fails on the code: with every bound broken in the environment
    (retry count -1, initial interval 5000 above the maximum 10, multiplier
    0.5, no consumer, prefetch 0) the settings are built all the same and
    hold the invalid values. *)
Lemma settings_accept_invalid_bounds :
  exists st,
    Settings.import_module Settings.dec_builtins invalid_environ = Py.Ok st
    /\ let r := Settings.class_of (Settings.rabbitmq (Settings.Settings_class st)) in
       Settings.RabbitMqSettings.retry_count r < 0
       /\ Settings.RabbitMqSettings.max_retry_interval_ms r
          < Settings.RabbitMqSettings.initial_retry_interval_ms r
       /\ (Settings.RabbitMqSettings.retry_multiplier r < 1)%Q
       /\ Settings.RabbitMqSettings.concurrent_consumers r < 1
       /\ Settings.RabbitMqSettings.prefetch_count r < 1.
Proof.
  destruct (import_module_returns Settings.dec_builtins invalid_environ)
    as (st & Hst & Hr & _).
  destruct (RabbitMqSettings_returns Settings.dec_builtins invalid_environ)
    as (c & Hc & H1 & H2 & H3 & H4 & H5 & H6).
  exists st. split; [exact Hst|].
  rewrite Hc in Hr. injection Hr as <-.
  cbv zeta. rewrite H1, H2, H3, H4, H5, H6.
  repeat split; vm_compute; reflexivity.
Qed.

Section CacheFacts.
Import Py Settings.
Variable B : builtins.

Lemma get_settings_cached (st : module_state B) (o : instance (Settings B)) :
  get_settings_cache st = Some o -> get_settings st = (o, st).
Proof. intros H. unfold get_settings. rewrite H. reflexivity. Qed.

Lemma get_settings_calls_cached (n : nat) (st : module_state B)
    (o : instance (Settings B)) :
  get_settings_cache st = Some o ->
  get_settings_calls n st = (replicate n o, st).
Proof.
  intros H. induction n as [|n IH]; [reflexivity|].
  cbn [get_settings_calls]. rewrite (get_settings_cached st o H), IH.
  reflexivity.
Qed.

Lemma get_settings_calls_fresh (n : nat) (st : module_state B) :
  get_settings_cache st = None ->
  fst (get_settings_calls n st)
  = replicate n (new (next_oid st) (Settings_class st)).
Proof.
  intros H. destruct n as [|n]; [reflexivity|].
  cbn [get_settings_calls]. unfold get_settings at 1. rewrite H.
  rewrite (get_settings_calls_cached n _ (new (next_oid st) (Settings_class st)));
    reflexivity.
Qed.

End CacheFacts.

(** C7, as the code has it.  The configuration lives in module-level
    state.  Importing the settings module binds a first Settings instance
    to the global [settings]; [get_settings] builds a second instance on
    its first call and returns that same cached instance on every later
    call.  The cached instance is a different object from the global one,
    and both read the same field values, those computed from the
    environment when the module was imported. *)
Theorem settings_cached_in_module_state :
  forall B environ st,
    Settings.import_module B environ = Py.Ok st ->
    forall n,
    exists o,
      fst (Settings.get_settings_calls n st) = replicate n o
      /\ Settings.class_of o = Settings.class_of (Settings.settings st)
      /\ Settings.rabbitmq (Settings.class_of o)
         = Settings.rabbitmq (Settings.Settings_class st)
      /\ Settings.oid o <> Settings.oid (Settings.settings st).
Proof.
  intros B environ st Hst n.
  destruct (import_module_returns B environ) as (st' & Hst' & _ & Hcls & Hoid & Hcache & Hnext).
  rewrite Hst in Hst'. injection Hst' as <-.
  exists (Settings.new (Settings.next_oid st) (Settings.Settings_class st)).
  split; [apply get_settings_calls_fresh; exact Hcache|].
  simpl. rewrite Hcls, Hoid, Hnext. repeat split. lia.
Qed.

Lemma settings_cached_in_module_state_witness :
  exists st,
    Settings.import_module Settings.dec_builtins ∅ = Py.Ok st
    /\ exists o,
        fst (Settings.get_settings_calls 3 st) = replicate 3 o
        /\ Settings.class_of o = Settings.class_of (Settings.settings st)
        /\ Settings.rabbitmq (Settings.class_of o)
           = Settings.rabbitmq (Settings.Settings_class st)
        /\ Settings.oid o <> Settings.oid (Settings.settings st).
Proof.
  destruct (import_module_returns Settings.dec_builtins ∅) as (st & Hst & _).
  exists st. split; [exact Hst|].
  exact (settings_cached_in_module_state Settings.dec_builtins ∅ st Hst 3).
Defined.

(** C7 fails on the code: the instance bound to the module-level name
    [settings] and the instance [get_settings] returns are two objects, so
    the configuration is built twice and its readers do not all observe
    one instance. *)
Lemma settings_global_is_second_instance :
  exists st o st',
    Settings.import_module Settings.dec_builtins ∅ = Py.Ok st
    /\ Settings.get_settings st = (o, st')
    /\ Settings.oid (Settings.settings st) = 8%nat
    /\ Settings.oid o = 9%nat
    /\ o <> Settings.settings st.
Proof.
  destruct (import_module_returns Settings.dec_builtins ∅)
    as (st & Hst & _ & Hcls & Hoid & Hcache & Hnext).
  exists st. do 2 eexists.
  split; [exact Hst|].
  split; [unfold Settings.get_settings; rewrite Hcache; reflexivity|].
  split; [exact Hoid|]. split; [exact Hnext|].
  intros H. apply (f_equal Settings.oid) in H. simpl in H.
  rewrite Hoid, Hnext in H. discriminate H.
Qed.

(** ** Auth middleware (middleware/auth.py) *)

Section DispatchFacts.
Import Py Auth.
Variables V U R : Type.
Variable validate_token : string -> result (gmap string (any V)).
Variable UUID : V -> result U.
Variable call_next : Request U -> result (Response R).
Variable public_apis : list string.

Local Abbreviation dispatch :=
  (dispatch V U R validate_token UUID call_next public_apis).

Lemma dispatch_OPTIONS (request : Request U) :
  method request = "OPTIONS" ->
  dispatch request = ([CallNext request], call_next request).
Proof. intros H. unfold Auth.dispatch. rewrite H. reflexivity. Qed.

Lemma dispatch_public (request : Request U) (prefix : string) :
  prefix ∈ public_apis ->
  startswith (path request) prefix = true ->
  dispatch request = ([CallNext request], call_next request).
Proof.
  intros Hin Hpre. unfold Auth.dispatch.
  destruct (String.eqb (method request) "OPTIONS"); [reflexivity|].
  assert (existsb (startswith (path request)) public_apis = true) as ->.
  { apply existsb_exists. exists prefix. split; [|exact Hpre].
    apply list_elem_of_In. exact Hin. }
  reflexivity.
Qed.

Lemma existsb_startswith_false (p : string) :
  (forall prefix, prefix ∈ public_apis -> startswith p prefix = false) ->
  existsb (startswith p) public_apis = false.
Proof.
  intros H. destruct (existsb (startswith p) public_apis) eqn:E; [|reflexivity].
  apply existsb_exists in E as (prefix & Hin & Hpre).
  apply list_elem_of_In in Hin. rewrite (H prefix Hin) in Hpre. discriminate Hpre.
Qed.

Lemma dispatch_no_bearer (request : Request U) :
  method request <> "OPTIONS" ->
  (forall prefix, prefix ∈ public_apis ->
                  startswith (path request) prefix = false) ->
  match headers_get request "Authorization" with
  | None => True
  | Some token => startswith token "Bearer " = false
  end ->
  dispatch request
  = ([], Ok (error_json_response "Invalid token" INVALID_TOKEN UNAUTHORIZED)).
Proof.
  intros Hm Hp Hh. unfold Auth.dispatch.
  apply String.eqb_neq in Hm. rewrite Hm.
  rewrite (existsb_startswith_false _ Hp).
  destruct (headers_get request "Authorization") as [token|]; [|reflexivity].
  rewrite Hh. rewrite orb_true_r. reflexivity.
Qed.

End DispatchFacts.

(** C8.  [dispatch] hands every OPTIONS request, and every request whose
    path starts with one of the public prefixes, to the downstream handler
    as it is, without validating any token: the only call it makes is
    [call_next] on the request, and its answer is the handler's.  For any
    other request whose Authorization header is absent or does not start
    with "Bearer ", it answers 401 "Invalid token" and makes no call at
    all, so the downstream handler is not invoked.  main.py configures the
    prefixes "/docs", "/openapi" and "/health". *)
Theorem dispatch_gate :
  forall (V U R : Type) validate_token UUID call_next public_apis
         (request : Auth.Request U),
    let answer :=
      Auth.dispatch V U R validate_token UUID call_next public_apis request in
    let passed := ([Auth.CallNext request], call_next request) in
    let is_public :=
      exists prefix,
        prefix ∈ public_apis /\ Py.startswith (Auth.path request) prefix = true in
    let no_bearer :=
      match Auth.headers_get request "Authorization" with
      | None => True
      | Some token => Py.startswith token "Bearer " = false
      end in
    (Auth.method request = "OPTIONS" -> answer = passed)
    /\ (is_public -> answer = passed)
    /\ (Auth.method request <> "OPTIONS" -> ~ is_public -> no_bearer ->
        answer = ([], Py.Ok (Auth.error_json_response "Invalid token"
                               Auth.INVALID_TOKEN 401)))
    /\ filter Auth.is_ValidateToken (fst passed) = []
    /\ Auth.main_public_apis = ["/docs"; "/openapi"; "/health"].
Proof.
  intros V U R validate_token UUID call_next public_apis request
         answer passed is_public no_bearer.
  split; [apply dispatch_OPTIONS|].
  split; [intros (prefix & Hin & Hpre); eapply dispatch_public; eassumption|].
  split; [|split; reflexivity].
  intros Hm Hp Hh. apply dispatch_no_bearer; [exact Hm| |exact Hh].
  intros prefix Hin.
  destruct (Py.startswith (Auth.path request) prefix) eqn:E; [|reflexivity].
  exfalso. apply Hp. exists prefix. split; assumption.
Qed.

Lemma dispatch_gate_witness :
  sample_dispatch (sample_request "OPTIONS" "/api/v1/payments")
  = ([Auth.CallNext (sample_request "OPTIONS" "/api/v1/payments")],
     Py.Ok (Auth.downstream "/api/v1/payments"))
  /\ sample_dispatch (sample_request "GET" "/health/liveness")
     = ([Auth.CallNext (sample_request "GET" "/health/liveness")],
        Py.Ok (Auth.downstream "/health/liveness"))
  /\ sample_dispatch (sample_request "GET" "/api/v1/payments")
     = ([], Py.Ok (Auth.error_json_response "Invalid token" Auth.INVALID_TOKEN 401)).
Proof.
  pose proof (dispatch_gate string string string sample_validator Py.Ok
                sample_app Auth.main_public_apis) as gate.
  split; [|split].
  - apply (proj1 (gate (sample_request "OPTIONS" "/api/v1/payments"))).
    reflexivity.
  - apply (proj1 (proj2 (gate (sample_request "GET" "/health/liveness")))).
    exists "/health". split; [|reflexivity].
    apply list_elem_of_In. simpl. auto.
  - apply (proj1 (proj2 (proj2 (gate (sample_request "GET" "/api/v1/payments"))))).
    + discriminate.
    + intros (prefix & Hin & Hpre).
      apply list_elem_of_In in Hin. simpl in Hin.
      destruct Hin as [<-|[<-|[<-|[]]]]; discriminate Hpre.
    + exact I.
Defined.

(** ** Startup (main.py) *)

Section LifespanFacts.
Import Py Main.

Ltac aborted :=
  match goal with
  | e : exn |- _ =>
      destruct e; cbn;
      (split; [reflexivity|]);
      (split; [intros H; apply list_elem_of_In in H; simpl in H;
               intuition discriminate|]);
      eexists; reflexivity
  end.

Lemma lifespan_startup_cases (w : world) :
  match first_failure w with
  | None =>
      outcome (lifespan_startup w) = Ok tt
      /\ last (trace (lifespan_startup w)) = Some Yield
      /\ manager_steps (trace (lifespan_startup w))
         = [ApplicationManager.SupervisorConnect;
            ApplicationManager.TopologyDeclare;
            ApplicationManager.ConsumersStart]
  | Some e =>
      outcome (lifespan_startup w) = Raise e
      /\ (Yield ∉ trace (lifespan_startup w))
      /\ (manager_steps (trace (lifespan_startup w))
          `prefix_of` [ApplicationManager.SupervisorConnect;
                       ApplicationManager.TopologyDeclare;
                       ApplicationManager.ConsumersStart])
  end.
Proof.
  destruct w as [r1 r2 r3 [r4 r5 r6] r7 r8].
  unfold first_failure, lifespan_startup, manager_startup,
    ApplicationManager.startup. cbn.
  destruct r1 as [[]|e]; [|aborted].
  destruct r2 as [[]|e]; [|aborted].
  destruct r3 as [[]|e]; [|aborted].
  destruct r4 as [[]|e]; [|aborted].
  destruct r5 as [[]|e]; [|aborted].
  destruct r6 as [[]|e]; [|aborted].
  cbn. repeat split.
Qed.

End LifespanFacts.

(** C6.  Startup runs the database check, then builds the manager and
    runs its startup: connect, then declare the topology, then start the
    consumers.  When every call succeeds the lifespan reaches its yield,
    after exactly these three steps in this order.  When any call fails,
    the exception of the first failing call propagates out of the
    lifespan, the steps after it are not run, and the yield is never
    reached: the application does not start serving. *)
Theorem lifespan_startup_fail_fast :
  forall w : Main.world,
    let run := Main.lifespan_startup w in
    let sequence :=
      [ApplicationManager.SupervisorConnect;
       ApplicationManager.TopologyDeclare;
       ApplicationManager.ConsumersStart] in
    match Main.first_failure w with
    | None =>
        Main.outcome run = Py.Ok tt
        /\ last (Main.trace run) = Some Main.Yield
        /\ Main.manager_steps (Main.trace run) = sequence
    | Some e =>
        Main.outcome run = Py.Raise e
        /\ (Main.Yield ∉ Main.trace run)
        /\ (Main.manager_steps (Main.trace run) `prefix_of` sequence)
    end.
Proof. intros w. exact (lifespan_startup_cases w). Qed.

(** ** RetryScheduler *)

Section RetryFacts.
Import RetryScheduler.
Local Open Scope Q_scope.

Lemma to_Q_nonneg (d : duration) : 0 <= to_Q d.
Proof. unfold to_Q, Qle. simpl. lia. Qed.

Lemma power_Qpower (m : Q) (n : nat) : power m n == m ^ Z.of_nat n.
Proof.
  induction n as [|n IH].
  - reflexivity.
  - replace (Z.of_nat (S n)) with (1 + Z.of_nat n)%Z by lia.
    rewrite Qpower_plus' by lia. rewrite Qpower_1_r.
    cbn [power]. rewrite IH. reflexivity.
Qed.

Lemma power_ge_1 (m : Q) (n : nat) : 1 <= m -> 1 <= power m n.
Proof.
  intros Hm. induction n as [|n IH]; cbn [power].
  - apply Qle_refl.
  - nra.
Qed.

Lemma power_step (m : Q) (n : nat) : 1 <= m -> power m n <= power m (S n).
Proof.
  intros Hm. pose proof (power_ge_1 m n Hm). cbn [power]. nra.
Qed.

Lemma nextDelay_le_max (p : RetryPolicy) (attempt : nat) :
  nextDelay p attempt <= to_Q (max_interval p).
Proof. unfold nextDelay. apply Q.le_min_r. Qed.

Lemma nextDelay_step (p : RetryPolicy) (attempt : nat) :
  1 <= multiplier p -> nextDelay p attempt <= nextDelay p (S attempt).
Proof.
  intros Hm. unfold nextDelay.
  apply Q.min_le_compat_r.
  pose proof (to_Q_nonneg (initial_interval p)).
  pose proof (power_step (multiplier p) attempt Hm).
  pose proof (power_ge_1 (multiplier p) attempt Hm).
  nra.
Qed.

Lemma nextDelay_mono (p : RetryPolicy) (n m : nat) :
  1 <= multiplier p -> (n <= m)%nat -> nextDelay p n <= nextDelay p m.
Proof.
  intros Hm Hnm. induction Hnm as [|m Hnm IH].
  - apply Qle_refl.
  - eapply Qle_trans; [exact IH|apply nextDelay_step; exact Hm].
Qed.

End RetryFacts.

(** C2.  [nextDelay] is a function of the policy and the attempt number
    alone: for every attempt, counted from 0, it is
    min(initial * multiplier^attempt, max).  At attempt 0 it is the
    initial interval, unless the initial interval exceeds the maximum,
    in which case it is the maximum.  Nothing random enters it. *)
Theorem nextDelay_formula :
  forall (p : RetryScheduler.RetryPolicy) (attempt : nat),
    let initial := RetryScheduler.to_Q (RetryScheduler.initial_interval p) in
    let max := RetryScheduler.to_Q (RetryScheduler.max_interval p) in
    (RetryScheduler.nextDelay p attempt
     == Qmin (initial * RetryScheduler.multiplier p ^ Z.of_nat attempt) max)%Q
    /\ (RetryScheduler.nextDelay p 0
        == if Qle_bool initial max then initial else max)%Q.
Proof.
  intros p attempt initial max. split.
  - unfold RetryScheduler.nextDelay. fold initial max.
    rewrite power_Qpower. reflexivity.
  - unfold RetryScheduler.nextDelay. fold initial max. cbn [RetryScheduler.power].
    rewrite Qmult_1_r.
    destruct (Qle_bool initial max) eqn:E.
    + apply Qle_bool_iff in E. apply Q.min_l. exact E.
    + apply Q.min_r. apply Qlt_le_weak. apply Qnot_le_lt.
      intros H. apply Qle_bool_iff in H. congruence.
Qed.



(** ** Publisher *)

Section PublishFacts.
Import RetryScheduler Envelope Publisher.

Variable policy : RetryPolicy.
Variable confirm : nat -> confirmation.
Variable envelope : OutboundEnvelope.
Hypothesis never_confirmed : forall attempt, confirm attempt <> BrokerAck.

Lemma publish_from_never_confirmed (remaining attempt : nat) :
  let run := publish_from policy confirm remaining attempt envelope in
  run.2 = Err PublishExhausted
  /\ sent_attempts run.1 = seq attempt (S remaining)
  /\ sent_envelopes run.1 = replicate (S remaining) envelope
  /\ slept run.1 = nextDelay policy <$> seq attempt remaining
  /\ dead_lettered run.1
     = [tag_failure (confirm (attempt + remaining)) envelope].
Proof using never_confirmed.
  revert attempt. induction remaining as [|remaining IH]; intros attempt.
  - cbn [publish_from].
    pose proof (never_confirmed attempt) as Hc.
    rewrite Nat.add_0_r.
    destruct (confirm attempt); [congruence| | |]; cbn; repeat split.
  - cbn [publish_from].
    pose proof (never_confirmed attempt) as Hc.
    specialize (IH (S attempt)). cbn zeta in IH.
    destruct (publish_from policy confirm remaining (S attempt) envelope)
      as [trace r] eqn:E.
    cbn [fst snd] in IH. destruct IH as (Hr & Hs & He & Hd & Hx).
    replace (attempt + S remaining)%nat with (S attempt + remaining)%nat by lia.
    unfold sent_attempts, sent_envelopes, slept, dead_lettered in *.
    cbn [Nat.add] in Hx.
    destruct (confirm attempt); [congruence| | |];
      cbn; rewrite Hs, He, Hd, Hx; repeat split; assumption.
Qed.

End PublishFacts.

(** C3.  When no send of an envelope is ever confirmed, [publish] sends it
    on the primary exchange exactly retry_count + 1 times (attempts 0 to
    retry_count, the same envelope each time), sleeping the scheduler's
    delay between two attempts; it then publishes the envelope exactly once
    to the dead-letter exchange, with the header x-failure-reason set, and
    returns Err(PublishExhausted). *)
Theorem publish_exhausted :
  forall policy retry_count confirm envelope,
    (forall attempt, confirm attempt <> Publisher.BrokerAck) ->
    let run := Publisher.publish policy retry_count confirm envelope in
    run.2 = Publisher.Err Publisher.PublishExhausted
    /\ length (sent_attempts run.1) = (retry_count + 1)%nat
    /\ sent_attempts run.1 = seq 0 (retry_count + 1)
    /\ sent_envelopes run.1 = replicate (retry_count + 1) envelope
    /\ slept run.1 = RetryScheduler.nextDelay policy <$> seq 0 retry_count
    /\ exists dead,
        dead_lettered run.1 = [dead]
        /\ length (dead_lettered run.1) = 1%nat
        /\ is_Some (Envelope.headers (Publisher.body dead) !! "x-failure-reason")
        /\ Publisher.message_id dead = Publisher.message_id envelope
        /\ Envelope.payload (Publisher.body dead)
           = Envelope.payload (Publisher.body envelope).
Proof.
  intros policy retry_count confirm envelope Hnever run.
  destruct (publish_from_never_confirmed policy confirm envelope Hnever
              retry_count 0) as (Hr & Hs & He & Hd & Hx).
  fold (Publisher.publish policy retry_count confirm envelope) in Hr, Hs, He, Hd, Hx.
  fold run in Hr, Hs, He, Hd, Hx.
  rewrite Nat.add_1_r.
  split; [exact Hr|]. split.
  { rewrite Hs. apply length_seq. }
  split; [exact Hs|]. split; [exact He|]. split; [exact Hd|].
  eexists. split; [exact Hx|].
  split.
  { rewrite Hx. reflexivity. }
  split; [|split; reflexivity].
  cbn. rewrite lookup_insert_eq. eexists. reflexivity.
Qed.

Lemma publish_exhausted_witness :
  let run := Publisher.publish scenario_policy 2 silent_broker sample_envelope in
  run.2 = Publisher.Err Publisher.PublishExhausted
  /\ length (sent_attempts run.1) = (2 + 1)%nat
  /\ sent_attempts run.1 = seq 0 (2 + 1)
  /\ sent_envelopes run.1 = replicate (2 + 1) sample_envelope
  /\ slept run.1 = RetryScheduler.nextDelay scenario_policy <$> seq 0 2
  /\ exists dead,
      dead_lettered run.1 = [dead]
      /\ length (dead_lettered run.1) = 1%nat
      /\ is_Some (Envelope.headers (Publisher.body dead) !! "x-failure-reason")
      /\ Publisher.message_id dead = Publisher.message_id sample_envelope
      /\ Envelope.payload (Publisher.body dead)
         = Envelope.payload (Publisher.body sample_envelope).
Proof.
  apply (publish_exhausted scenario_policy 2 silent_broker sample_envelope).
  intros attempt. unfold silent_broker. discriminate.
Defined.

(** ** ConsumerPool *)

Section ConsumeFacts.
Import RetryScheduler Envelope ConsumerPool.
Variable policy : RetryPolicy.
Variable retry_count : nat.
Variable handler : InboundDelivery -> handler_result.
Hypothesis always_fails : forall d, handler d <> HandlerOk.

Local Abbreviation run := (run policy retry_count handler).
Local Abbreviation step := (step policy retry_count handler).

Lemma remove_tag_only (tag : nat) (m : message) :
  remove_tag tag [{| delivery_tag := tag; content := m |}] = [].
Proof.
  unfold remove_tag. rewrite filter_cons, filter_nil. cbn [delivery_tag].
  destruct (decide (tag ≠ tag)) as [H|H]; [congruence|].
  reflexivity.
Qed.

Lemma retry_count_of_with_header (m : message) (k : nat) :
  retry_count_of (with_header "x-retry-count" (HInt k) m) = k.
Proof. unfold retry_count_of, with_header. cbn. rewrite lookup_insert_eq. reflexivity. Qed.

(** A failed delivery with retries left: the copy goes to the holding
    queue and the original is acknowledged. *)
Lemma step_retry (m : message) (tag : nat) :
  (retry_count_of m < retry_count)%nat ->
  let copy := with_header "x-retry-count" (HInt (retry_count_of m + 1)) m in
  let delay := nextDelay policy (retry_count_of m) in
  exists trace,
    step (one_ready m tag)
    = (trace,
       {| primary_queue := []; unacked := [];
          holding_queue := [(delay, copy)];
          dead_letter_queue := []; next_tag := S tag |})
    /\ seen_retry_counts trace = [retry_count_of m]
    /\ republished_counts trace = [S (retry_count_of m)]
    /\ dead_letters trace = []
    /\ acked trace = [tag].
Proof using always_fails.
  intros Hlt copy delay. apply Nat.ltb_lt in Hlt.
  unfold ConsumerPool.step, one_ready, process. cbn -[nextDelay with_header Nat.ltb].
  rewrite Hlt.
  pose proof (always_fails {| delivery_tag := tag; content := m |}) as Hh.
  destruct (handler {| delivery_tag := tag; content := m |}); [congruence| |];
    unfold ack, publish_delayed; cbn -[nextDelay with_header Nat.ltb remove_tag].
  all: rewrite remove_tag_only;
    eexists; (split; [reflexivity|]); cbn -[nextDelay with_header];
    rewrite retry_count_of_with_header, Nat.add_1_r; repeat split.
Qed.

(** A failed delivery with no retry left: the message goes to the
    dead-letter exchange and the original is acknowledged. *)
Lemma step_dead_letter (m : message) (tag : nat) :
  (retry_count <= retry_count_of m)%nat ->
  let dead := with_header "x-failure-reason" (HStr "handler failed") m in
  exists trace pre,
    step (one_ready m tag) = (trace, at_rest [dead] (S tag))
    /\ trace = pre ++ [DeadLetter dead; Ack tag]
    /\ seen_retry_counts trace = [retry_count_of m]
    /\ republished_counts trace = []
    /\ dead_letters pre = []
    /\ acked pre = [].
Proof using always_fails.
  intros Hle dead. apply Nat.ltb_ge in Hle.
  unfold ConsumerPool.step, one_ready, process. cbn -[nextDelay with_header Nat.ltb].
  rewrite Hle.
  pose proof (always_fails {| delivery_tag := tag; content := m |}) as Hh.
  destruct (handler {| delivery_tag := tag; content := m |}); [congruence| |];
    unfold ack, publish_dead_letter, at_rest;
    cbn -[nextDelay with_header Nat.ltb remove_tag];
    rewrite remove_tag_only.
  - exists [Handle {| delivery_tag := tag; content := m |} (retry_count_of m);
            DeadLetter dead; Ack tag],
           [Handle {| delivery_tag := tag; content := m |} (retry_count_of m)].
    repeat split.
  - exists [Handle {| delivery_tag := tag; content := m |} (retry_count_of m);
            LogHandlerError tag; DeadLetter dead; Ack tag],
           [Handle {| delivery_tag := tag; content := m |} (retry_count_of m);
            LogHandlerError tag].
    repeat split.
Qed.

(** With the primary queue empty, the message waiting in the holding
    queue comes back into the primary queue. *)
Lemma step_bounce (m : message) (delay : Q) (tag : nat) :
  step {| primary_queue := []; unacked := [];
          holding_queue := [(delay, m)];
          dead_letter_queue := []; next_tag := tag |}
  = ([Bounce m], one_ready m tag).
Proof. reflexivity. Qed.

Lemma run_at_rest (n : nat) (dead : list message) (tag : nat) :
  run n (at_rest dead tag) = ([], at_rest dead tag).
Proof.
  induction n as [|n IH]; [reflexivity|].
  cbn [ConsumerPool.run]. unfold ConsumerPool.step at 1. cbn [at_rest primary_queue holding_queue].
  rewrite IH. reflexivity.
Qed.

Lemma seen_bounce (t1 t2 : list event) (m : message) :
  seen_retry_counts (t1 ++ [Bounce m] ++ t2)
  = seen_retry_counts t1 ++ seen_retry_counts t2.
Proof. unfold seen_retry_counts. rewrite !omap_app. reflexivity. Qed.

Lemma republished_bounce (t1 t2 : list event) (m : message) :
  republished_counts (t1 ++ [Bounce m] ++ t2)
  = republished_counts t1 ++ republished_counts t2.
Proof. unfold republished_counts. rewrite !omap_app. reflexivity. Qed.

Lemma dead_letters_bounce (t1 t2 : list event) (m : message) :
  dead_letters (t1 ++ [Bounce m] ++ t2) = dead_letters t1 ++ dead_letters t2.
Proof. unfold dead_letters. rewrite !omap_app. reflexivity. Qed.

Lemma acked_bounce (t1 t2 : list event) (m : message) :
  acked (t1 ++ [Bounce m] ++ t2) = acked t1 ++ acked t2.
Proof. unfold acked. rewrite !omap_app. reflexivity. Qed.

Lemma run_always_failing (j : nat) :
  forall (m : message) (tag : nat),
    (retry_count_of m + j = retry_count)%nat ->
    exists trace pre dead last_tag,
      run (2 * j + 1) (one_ready m tag) = (trace, at_rest [dead] (tag + j + 1))
      /\ seen_retry_counts trace = seq (retry_count_of m) (S j)
      /\ republished_counts trace = seq (S (retry_count_of m)) j
      /\ trace = pre ++ [DeadLetter dead; Ack last_tag]
      /\ dead_letters pre = []
      /\ length (acked pre) = j
      /\ is_Some (headers dead !! "x-failure-reason")
      /\ payload dead = payload m
      /\ retry_count_of dead = retry_count.
Proof using always_fails.
  induction j as [|j IH]; intros m tag Hk.
  - destruct (step_dead_letter m tag ltac:(lia))
      as (trace & pre & Hstep & Htrace & Hseen & Hrep & Hdead & Hack).
    exists trace, pre. do 2 eexists.
    change (2 * 0 + 1)%nat with 1%nat. cbn [ConsumerPool.run].
    rewrite Hstep. rewrite app_nil_r.
    replace (tag + 0 + 1)%nat with (S tag) by lia.
    split; [reflexivity|]. split; [exact Hseen|]. split; [exact Hrep|].
    split; [exact Htrace|]. split; [exact Hdead|].
    split; [rewrite Hack; reflexivity|].
    split; [|split].
    + cbn. rewrite lookup_insert_eq. eexists. reflexivity.
    + reflexivity.
    + unfold retry_count_of, with_header. cbn [headers].
      rewrite lookup_insert_ne by discriminate.
      fold (retry_count_of m). lia.
  - destruct (step_retry m tag ltac:(lia))
      as (t1 & Hstep & Hseen1 & Hrep1 & Hdead1 & Hack1).
    set (copy := with_header "x-retry-count" (HInt (retry_count_of m + 1)) m) in *.
    assert (retry_count_of copy = S (retry_count_of m)) as Hcopy.
    { unfold copy. rewrite retry_count_of_with_header. lia. }
    destruct (IH copy (S tag) ltac:(lia))
      as (t2 & pre & dead & last_tag & Hrun & Hseen & Hrep & Htrace & Hdead
          & Hack & Hreason & Hpayload & Hcount).
    exists (t1 ++ [Bounce copy] ++ t2), (t1 ++ [Bounce copy] ++ pre), dead, last_tag.
    replace (2 * S j + 1)%nat with (S (S (2 * j + 1))) by lia.
    cbn [ConsumerPool.run]. rewrite Hstep, step_bounce, Hrun.
    replace (tag + S j + 1)%nat with (S tag + j + 1)%nat by lia.
    split; [reflexivity|].
    rewrite seen_bounce, republished_bounce, dead_letters_bounce, acked_bounce.
    rewrite Hseen1, Hrep1, Hdead1, Hack1, Hseen, Hrep, Hdead, Hcopy.
    split; [reflexivity|]. split; [reflexivity|].
    split; [rewrite Htrace, <- !app_assoc; reflexivity|].
    split; [reflexivity|].
    split; [cbn; rewrite Hack; reflexivity|].
    split; [exact Hreason|]. split; [|exact Hcount].
    rewrite Hpayload. reflexivity.
Qed.

End ConsumeFacts.



(** ** More on the auth middleware *)

Section BearerFacts.
Import Py Auth.

Lemma rev_string_rev_string (s acc1 acc2 : string) :
  rev_string acc2 (rev_string acc1 s) = rev_string (s ++ acc2) acc1.
Proof.
  revert acc1 acc2. induction s as [|c s IH]; intros acc1 acc2.
  - reflexivity.
  - cbn [rev_string]. rewrite IH. reflexivity.
Qed.

Lemma string_app_nil_r (s : string) : (s ++ "")%string = s.
Proof.
  induction s as [|c s IH]; [reflexivity|].
  change (String c s +:+ "") with (String c (s +:+ "")). rewrite IH. reflexivity.
Qed.

(** Text without any occurrence of the separator is one piece. *)
Lemma split_from_no_separator (sep s cur : string) :
  contains s sep = false ->
  split_from sep 0 cur s = [rev_string "" (rev_string cur s)].
Proof.
  revert cur. induction s as [|c s IH]; intros cur H.
  - reflexivity.
  - cbn [contains] in H. apply orb_false_iff in H as [Hhere Hlater].
    cbn [split_from]. rewrite Hhere. rewrite (IH _ Hlater). reflexivity.
Qed.

Lemma bearer_token_defined (header : string) :
  startswith header "Bearer " = true -> is_Some (bearer_token header).
Proof.
  intros H. unfold bearer_token, split.
  destruct header as [|c rest]; [discriminate H|].
  cbn [split_from]. rewrite H.
  destruct (split_from "Bearer " (String.length "Bearer " - 1) "" rest) as [|t ts] eqn:E.
  - exfalso. exact (split_from_nonempty _ _ _ _ E).
  - cbn. eexists. reflexivity.
Qed.

End BearerFacts.

Section ValidationFacts.
Import Py Auth.
Variables V U R : Type.
Variable validate_token : string -> result (gmap string (any V)).
Variable UUID : V -> result U.
Variable call_next : Request U -> result (Response R).
Variable public_apis : list string.

Lemma dispatch_bearer (request : Request U) (header token : string) :
  method request <> "OPTIONS" ->
  existsb (startswith (path request)) public_apis = false ->
  headers_get request "Authorization" = Some header ->
  startswith header "Bearer " = true ->
  bearer_token header = Some token ->
  dispatch V U R validate_token UUID call_next public_apis request
  = after_validation UUID call_next request token (validate_token token).
Proof.
  intros Hm Hp Hh Hb Ht. unfold dispatch.
  apply String.eqb_neq in Hm. rewrite Hm, Hp, Hh, Hb.
  assert (String.eqb header "" = false) as ->.
  { destruct header; [discriminate Hb|reflexivity]. }
  cbn [orb negb]. unfold bearer_token in Ht.
  destruct (split header "Bearer ") as [parts|e]; [|discriminate Ht].
  rewrite Ht. unfold after_validation, await_call_next.
  destruct (validate_token token) as [payload|e]; [|reflexivity].
  destruct (payload !! "sub") as [[|user_id]|]; reflexivity.
Qed.

End ValidationFacts.

Section DispatchOutcomes.
Import Py Auth.
Variables V U R : Type.
Variable validate_token : string -> result (gmap string (any V)).
Variable UUID : V -> result U.
Variable call_next : Request U -> result (Response R).
Variable public_apis : list string.

Local Abbreviation dispatch :=
  (dispatch V U R validate_token UUID call_next public_apis).

Lemma handle_never_calls_next (trace : list (event U)) (e : exn) (req : Request U) :
  CallNext req ∉ trace -> CallNext req ∉ (handle U R trace e).1.
Proof.
  intros H. unfold handle.
  destruct e; cbn; try exact H.
  all: rewrite elem_of_app, list_elem_of_singleton.
  all: intros [Hin|Heq]; [exact (H Hin)|discriminate Heq].
Qed.

Lemma after_validation_calls_next (request req : Request U) (token : string)
    (validated : result (gmap string (any V))) :
  CallNext req ∈ (after_validation UUID call_next request token validated).1 ->
  exists payload user_id u,
    validated = Ok payload
    /\ payload !! "sub" = Some (PyObj user_id)
    /\ UUID user_id = Ok u
    /\ req = set_user_id request u.
Proof.
  assert (CallNext req ∉ [ValidateToken (U := U) token]) as Hnot.
  { rewrite list_elem_of_singleton. discriminate. }
  unfold after_validation.
  destruct validated as [payload|e].
  2: { intros H. exfalso. exact (handle_never_calls_next _ e req Hnot H). }
  destruct (payload !! "sub") as [[|user_id]|] eqn:Hsub.
  1, 3: intros H; exfalso; exact (Hnot H).
  destruct (UUID user_id) as [u|e] eqn:Hu.
  2: { intros H. exfalso. exact (handle_never_calls_next _ e req Hnot H). }
  cbn [fst]. intros H.
  apply elem_of_cons in H as [H|H]; [discriminate H|].
  apply list_elem_of_singleton in H. injection H as ->.
  exists payload, user_id, u. repeat split; assumption.
Qed.

End DispatchOutcomes.

(** X1.  A request that is neither OPTIONS nor under a public prefix
    reaches the downstream handler only authenticated: whenever [dispatch]
    calls [call_next], the Authorization header started with "Bearer ", the
    validator accepted the extracted token and returned a payload whose
    "sub" parsed as a UUID, and the request handed on is the original one
    with [state.user_id] set to that UUID. *)
Theorem dispatch_calls_next_only_authenticated :
  forall (V U R : Type) validate_token UUID call_next public_apis
         (request req : Auth.Request U),
    Auth.method request <> "OPTIONS" ->
    existsb (Py.startswith (Auth.path request)) public_apis = false ->
    Auth.CallNext req
      ∈ (Auth.dispatch V U R validate_token UUID call_next public_apis request).1 ->
    exists header token payload user_id u,
      Auth.headers_get request "Authorization" = Some header
      /\ Py.startswith header "Bearer " = true
      /\ bearer_token header = Some token
      /\ validate_token token = Py.Ok payload
      /\ payload !! "sub" = Some (Auth.PyObj user_id)
      /\ UUID user_id = Py.Ok u
      /\ req = Auth.set_user_id request u
      /\ Auth.state_user_id req = Some u.
Proof.
  intros V U R validate_token UUID call_next public_apis request req Hm Hp Hin.
  destruct (Auth.headers_get request "Authorization") as [header|] eqn:Hh.
  2: { exfalso. revert Hin. unfold Auth.dispatch.
       apply String.eqb_neq in Hm. rewrite Hm, Hp, Hh. cbn. apply not_elem_of_nil. }
  destruct (Py.startswith header "Bearer ") eqn:Hb.
  2: { exfalso. revert Hin. unfold Auth.dispatch.
       apply String.eqb_neq in Hm. rewrite Hm, Hp, Hh, Hb.
       rewrite orb_true_r. cbn. apply not_elem_of_nil. }
  destruct (bearer_token_defined header Hb) as [token Ht].
  rewrite (dispatch_bearer V U R validate_token UUID call_next public_apis
             request header token Hm Hp Hh Hb Ht) in Hin.
  apply after_validation_calls_next in Hin
    as (payload & user_id & u & Hv & Hsub & Hu & ->).
  exists header, token, payload, user_id, u. repeat split; assumption.
Qed.

Lemma dispatch_calls_next_only_authenticated_witness :
  exists header token payload user_id u,
    Auth.headers_get (bearer_request "Bearer abc") "Authorization" = Some header
    /\ Py.startswith header "Bearer " = true
    /\ bearer_token header = Some token
    /\ accepting_validator token = Py.Ok payload
    /\ payload !! "sub" = Some (Auth.PyObj user_id)
    /\ Py.Ok (A := string) user_id = Py.Ok u
    /\ Auth.set_user_id (bearer_request "Bearer abc") "0b54e9c0"
       = Auth.set_user_id (bearer_request "Bearer abc") u
    /\ Auth.state_user_id (Auth.set_user_id (bearer_request "Bearer abc") "0b54e9c0")
       = Some u.
Proof.
  apply (dispatch_calls_next_only_authenticated string string string
           accepting_validator Py.Ok sample_app Auth.main_public_apis
           (bearer_request "Bearer abc")).
  - discriminate.
  - reflexivity.
  - apply list_elem_of_In. cbn. right. left. reflexivity.
Defined.

(** X2.  When the validator rejects the bearer token with an
    UnauthorizedException, [dispatch] answers 401 with the message and the
    code of that exception; the validator was called once, on the extracted
    token, and the downstream handler not at all. *)
Theorem dispatch_rejected_token :
  forall (V U R : Type) validate_token UUID call_next public_apis
         (request : Auth.Request U) header token message code,
    Auth.method request <> "OPTIONS" ->
    existsb (Py.startswith (Auth.path request)) public_apis = false ->
    Auth.headers_get request "Authorization" = Some header ->
    Py.startswith header "Bearer " = true ->
    bearer_token header = Some token ->
    validate_token token = Py.Raise (Py.UnauthorizedException message code) ->
    Auth.dispatch V U R validate_token UUID call_next public_apis request
    = ([Auth.ValidateToken token],
       Py.Ok (Auth.error_json_response message code 401)).
Proof.
  intros V U R validate_token UUID call_next public_apis request header token
         message code Hm Hp Hh Hb Ht Hv.
  rewrite (dispatch_bearer V U R validate_token UUID call_next public_apis
             request header token Hm Hp Hh Hb Ht).
  rewrite Hv. reflexivity.
Qed.

Lemma dispatch_rejected_token_witness :
  Auth.dispatch string string string sample_validator Py.Ok sample_app
    Auth.main_public_apis (bearer_request "Bearer abc")
  = ([Auth.ValidateToken "abc"],
     Py.Ok (Auth.error_json_response "Token expired" "INVALID_TOKEN" 401)).
Proof.
  apply (dispatch_rejected_token string string string sample_validator Py.Ok
           sample_app Auth.main_public_apis (bearer_request "Bearer abc")
           "Bearer abc" "abc" "Token expired" "INVALID_TOKEN").
  - discriminate.
  - reflexivity.
  - reflexivity.
  - reflexivity.
  - reflexivity.
  - reflexivity.
Defined.

(** X3.  When the validator accepts the token but the payload has no
    "sub", or "sub" is None, [dispatch] answers 401 "Invalid token: user id
    not found" and does not call the downstream handler. *)
Theorem dispatch_payload_without_sub :
  forall (V U R : Type) validate_token UUID call_next public_apis
         (request : Auth.Request U) header token payload,
    Auth.method request <> "OPTIONS" ->
    existsb (Py.startswith (Auth.path request)) public_apis = false ->
    Auth.headers_get request "Authorization" = Some header ->
    Py.startswith header "Bearer " = true ->
    bearer_token header = Some token ->
    validate_token token = Py.Ok payload ->
    payload !! "sub" = None \/ payload !! "sub" = Some Auth.PyNone ->
    Auth.dispatch V U R validate_token UUID call_next public_apis request
    = ([Auth.ValidateToken token],
       Py.Ok (Auth.error_json_response "Invalid token: user id not found"
                Auth.INVALID_TOKEN 401)).
Proof.
  intros V U R validate_token UUID call_next public_apis request header token
         payload Hm Hp Hh Hb Ht Hv Hsub.
  rewrite (dispatch_bearer V U R validate_token UUID call_next public_apis
             request header token Hm Hp Hh Hb Ht).
  rewrite Hv. unfold after_validation.
  destruct Hsub as [-> | ->]; reflexivity.
Qed.

Lemma dispatch_payload_without_sub_witness :
  Auth.dispatch string string string anonymous_validator Py.Ok sample_app
    Auth.main_public_apis (bearer_request "Bearer abc")
  = ([Auth.ValidateToken "abc"],
     Py.Ok (Auth.error_json_response "Invalid token: user id not found"
              Auth.INVALID_TOKEN 401)).
Proof.
  apply (dispatch_payload_without_sub string string string anonymous_validator
           Py.Ok sample_app Auth.main_public_apis (bearer_request "Bearer abc")
           "Bearer abc" "abc" ∅).
  - discriminate.
  - reflexivity.
  - reflexivity.
  - reflexivity.
  - reflexivity.
  - reflexivity.
  - left. reflexivity.
Defined.

(** X4.  Any other exception raised while the token is validated, or while
    "sub" is parsed as a UUID, leaves [dispatch] as it is: it is not turned
    into a response, and the downstream handler is not called.  An
    exception that derives from Exception is logged first; one that does
    not passes through unlogged. *)
Theorem dispatch_unexpected_exception :
  forall (V U R : Type) validate_token UUID call_next public_apis
         (request : Auth.Request U) header token e,
    Auth.method request <> "OPTIONS" ->
    existsb (Py.startswith (Auth.path request)) public_apis = false ->
    Auth.headers_get request "Authorization" = Some header ->
    Py.startswith header "Bearer " = true ->
    bearer_token header = Some token ->
    (forall message code, e <> Py.UnauthorizedException message code) ->
    (validate_token token = Py.Raise e
     \/ exists payload user_id,
         validate_token token = Py.Ok payload
         /\ payload !! "sub" = Some (Auth.PyObj user_id)
         /\ UUID user_id = Py.Raise e) ->
    Auth.dispatch V U R validate_token UUID call_next public_apis request
    = (Auth.ValidateToken token
         :: (if Py.is_Exception e then [Auth.LogException e] else []),
       Py.Raise e).
Proof.
  intros V U R validate_token UUID call_next public_apis request header token e
         Hm Hp Hh Hb Ht He Hfail.
  rewrite (dispatch_bearer V U R validate_token UUID call_next public_apis
             request header token Hm Hp Hh Hb Ht).
  assert (Auth.handle U R [Auth.ValidateToken token] e
          = (Auth.ValidateToken token
               :: (if Py.is_Exception e then [Auth.LogException e] else []),
             Py.Raise e)) as Hhandle.
  { destruct e; try reflexivity. exfalso. eapply He. reflexivity. }
  unfold after_validation.
  destruct Hfail as [-> | (payload & user_id & -> & -> & ->)]; exact Hhandle.
Qed.

Lemma dispatch_unexpected_exception_witness :
  Auth.dispatch string string string broken_validator Py.Ok sample_app
    Auth.main_public_apis (bearer_request "Bearer abc")
  = ([Auth.ValidateToken "abc";
      Auth.LogException (Py.OtherException "JWKS endpoint unreachable")],
     Py.Raise (Py.OtherException "JWKS endpoint unreachable")).
Proof.
  apply (dispatch_unexpected_exception string string string broken_validator
           Py.Ok sample_app Auth.main_public_apis (bearer_request "Bearer abc")
           "Bearer abc" "abc" (Py.OtherException "JWKS endpoint unreachable")).
  - discriminate.
  - reflexivity.
  - reflexivity.
  - reflexivity.
  - reflexivity.
  - discriminate.
  - left. reflexivity.
Defined.



(** ** More on the lifespan *)

(** X6.  When the database check fails with an exception deriving from
    Exception, at connecting or at the probe statement, the lifespan logs
    one error, "Database connection failed", and re-raises that exception:
    the RabbitMQ manager is never built nor started, and the application
    state is not set. *)
Theorem lifespan_database_failure :
  forall (w : Main.world) (e : Py.exn),
    Py.is_Exception e = true ->
    Main.engine_connect w = Py.Raise e
    \/ (Main.engine_connect w = Py.Ok tt /\ Main.conn_execute w = Py.Raise e) ->
    Main.outcome (Main.lifespan_startup w) = Py.Raise e
    /\ last (Main.trace (Main.lifespan_startup w))
       = Some (Main.LoggerError "Database connection failed" e)
    /\ (Main.ManagerInit ∉ Main.trace (Main.lifespan_startup w))
    /\ Main.manager_steps (Main.trace (Main.lifespan_startup w)) = []
    /\ Main.SetAppState ∉ Main.trace (Main.lifespan_startup w).
Proof.
  intros w e He Hfail.
  destruct w as [r1 r2 r3 [r4 r5 r6] r7 r8]. cbn in Hfail.
  unfold Main.lifespan_startup. cbn.
  destruct Hfail as [-> | [-> ->]]; cbn; rewrite He; cbn.
  all: repeat split; try reflexivity.
  all: intros H; apply list_elem_of_In in H; simpl in H; intuition discriminate.
Qed.

Lemma lifespan_database_failure_witness :
  Main.outcome (Main.lifespan_startup database_down)
  = Py.Raise (Py.OtherException "connection refused")
  /\ last (Main.trace (Main.lifespan_startup database_down))
     = Some (Main.LoggerError "Database connection failed"
               (Py.OtherException "connection refused"))
  /\ (Main.ManagerInit ∉ Main.trace (Main.lifespan_startup database_down))
  /\ Main.manager_steps (Main.trace (Main.lifespan_startup database_down)) = []
  /\ Main.SetAppState ∉ Main.trace (Main.lifespan_startup database_down).
Proof.
  apply (lifespan_database_failure database_down
           (Py.OtherException "connection refused")).
  - reflexivity.
  - left. reflexivity.
Defined.

(** X7.  On shutdown the manager is stopped before the database engine is
    disposed.  The two calls are not protected: when stopping the manager
    raises, the exception leaves the lifespan and the engine is never
    disposed; when it returns, the engine is disposed and the outcome of
    the lifespan is the outcome of that call. *)
Theorem lifespan_shutdown_order :
  forall w : Main.world,
    let run := Main.lifespan_shutdown w in
    match Main.manager_shutdown w with
    | Py.Raise e =>
        Main.outcome run = Py.Raise e
        /\ Main.trace run
           = [Main.LoggerInfo "Application shutdown initiated"; Main.ManagerShutdown]
        /\ Main.EngineDispose ∉ Main.trace run
    | Py.Ok _ =>
        Main.outcome run = Main.engine_dispose w
        /\ exists before between after,
            Main.trace run
            = before ++ [Main.ManagerShutdown] ++ between
                ++ [Main.EngineDispose] ++ after
    end.
Proof.
  intros w run. unfold run, Main.lifespan_shutdown.
  destruct w as [r1 r2 r3 b r7 r8]. cbn.
  destruct r7 as [[]|e]; cbn.
  - split.
    + destruct r8 as [[]|e]; reflexivity.
    + exists [Main.LoggerInfo "Application shutdown initiated"],
        [Main.LoggerInfo "RabbitMQ application manager shutdown complete"].
      destruct r8 as [[]|e]; cbn; eexists; reflexivity.
  - repeat split.
    intros H. apply list_elem_of_In in H. simpl in H. intuition discriminate.
Qed.

(** ** Database sessions and the readiness probe *)

(** X8.  The readiness probe answers "ready" exactly when the session is
    entered, the probe statement runs and the session is exited without an
    exception; any exception deriving from Exception gives "not ready"
    instead of an error, so the probe itself only fails on an exception
    outside Exception. *)
Theorem readiness_never_fails :
  forall db : Session.database,
    let answer := (Session.readiness db).2 in
    (answer = Py.Ok {[ "status" := "ready" ]} <->
       Session.enter db = Py.Ok tt /\ Session.execute db = Py.Ok tt
       /\ Session.exit db = Py.Ok tt)
    /\ (answer = Py.Ok {[ "status" := "ready" ]}
        \/ answer = Py.Ok {[ "status" := "not ready" ]}
        \/ exists e, answer = Py.Raise e /\ Py.is_Exception e = false).
Proof.
  intros [r1 r2 r3 r4]. unfold Session.readiness, Session.async_with. cbn.
  assert (forall e, Py.is_Exception e = true ->
            Py.Ok (A := gmap string string) {[ "status" := "not ready" ]}
            <> Py.Ok {[ "status" := "ready" ]}) as Hne.
  { intros e _ H.
    apply (f_equal (fun r : Py.result (gmap string string) =>
                      match r with
                      | Py.Ok m => m !! "status"
                      | Py.Raise _ => None
                      end)) in H.
    rewrite !lookup_singleton_eq in H. discriminate H. }
  destruct r1 as [[]|e1]; cbn.
  - destruct r4 as [[]|e4]; cbn.
    + destruct r2 as [[]|e2]; cbn.
      * split; [|left; reflexivity]. split; [repeat split|reflexivity].
      * destruct (Py.is_Exception e2) eqn:E2; cbn.
        -- split; [|right; left; reflexivity].
           split; [intros H; exfalso; exact (Hne e2 E2 H)|].
           intros (_ & H & _); discriminate H.
        -- split; [|right; right; eexists; split; [reflexivity|exact E2]].
           split; [discriminate|]. intros (_ & H & _); discriminate H.
    + destruct r2 as [[]|e2]; cbn;
        destruct (Py.is_Exception e4) eqn:E4; cbn.
      all: try (split; [|right; left; reflexivity];
                split; [intros H; exfalso; exact (Hne e4 E4 H)|];
                intros (_ & _ & H); discriminate H).
      all: split; [|right; right; eexists; split; [reflexivity|exact E4]].
      all: split; [discriminate|]; intros (_ & _ & H); discriminate H.
  - destruct (Py.is_Exception e1) eqn:E1; cbn.
    + split; [|right; left; reflexivity].
      split; [intros H; exfalso; exact (Hne e1 E1 H)|].
      intros (H & _); discriminate H.
    + split; [|right; right; eexists; split; [reflexivity|exact E1]].
      split; [discriminate|]. intros (H & _); discriminate H.
Qed.

(** X9.  [get_db_session] rolls the session back exactly when it was
    entered and the code using it raised an exception deriving from
    Exception; the session is exited whenever it was entered, whatever
    happened in between; and when the database calls themselves succeed,
    the outcome is that of the code using the session, an exception being
    re-raised unchanged. *)
Theorem get_db_session_rollback :
  forall (db : Session.database) (user : Py.result unit),
    let run := Session.get_db_session db user in
    (Session.Rollback ∈ run.1 <->
       Session.enter db = Py.Ok tt
       /\ exists e, user = Py.Raise e /\ Py.is_Exception e = true)
    /\ (Session.Exit ∈ run.1 <-> Session.enter db = Py.Ok tt)
    /\ (Session.enter db = Py.Ok tt -> Session.rollback db = Py.Ok tt ->
        Session.exit db = Py.Ok tt -> run.2 = user).
Proof.
  intros [r1 r2 r3 r4] user.
  unfold Session.get_db_session, Session.async_with. cbn.
  destruct r1 as [[]|e1]; cbn.
  - destruct user as [[]|e]; [|destruct (Py.is_Exception e) eqn:E]; cbn.
    + split; [|split].
      * split.
        -- intros H. apply list_elem_of_In in H. simpl in H. intuition discriminate.
        -- intros (_ & e & H & _). discriminate H.
      * split; [reflexivity|]. intros _. apply list_elem_of_In. simpl. auto.
      * intros _ _ ->. reflexivity.
    + split; [|split].
      * split; [intros _; split; [reflexivity|exists e; split; [reflexivity|exact E]]|].
        intros _. apply list_elem_of_In. simpl. auto.
      * split; [reflexivity|]. intros _. apply list_elem_of_In. simpl. auto.
      * intros _ -> ->. reflexivity.
    + split; [|split].
      * split.
        -- intros H. apply list_elem_of_In in H. simpl in H. intuition discriminate.
        -- intros (_ & e' & H & H'). injection H as <-. congruence.
      * split; [reflexivity|]. intros _. apply list_elem_of_In. simpl. auto.
      * intros _ _ ->. reflexivity.
  - split; [|split].
    + split.
      * intros H. apply list_elem_of_In in H. simpl in H. intuition discriminate.
      * intros (H & _). discriminate H.
    + split.
      * intros H. apply list_elem_of_In in H. simpl in H. intuition discriminate.
      * intros H. discriminate H.
    + intros H. discriminate H.
Qed.

(** ** Flattening of the log extras (logging.py) *)

Section FlattenFacts.
Import Logging.
Context {A : Type}.

Lemma pyobj_nested_ind (P : pyobj A -> Prop) :
  (forall a, P (Leaf a)) ->
  (forall d, Forall (fun kv => P kv.2) d -> P (Dict d)) ->
  forall v, P v.
Proof.
  intros Hleaf Hdict.
  fix IH 1. intros [a|d]; [apply Hleaf|].
  apply Hdict. induction d as [|[k v] d IHd]; constructor; [apply IH|exact IHd].
Qed.

Lemma flatten_dict_loop (d : list (string * pyobj A)) (parent_key sep : string) :
  flatten_dict d parent_key sep = flatten_loop d parent_key sep ∅.
Proof.
  unfold flatten_dict. cbn [flatten_obj].
  generalize (∅ : gmap string A) as items.
  induction d as [|[k v] d IH]; intros items; [reflexivity|].
  cbn [flatten_loop]. rewrite <- IH. destruct v; reflexivity.
Qed.

Lemma lstrip_not_stripped (s : string) :
  starts_with_stripped (lstrip s "extra.") = false.
Proof.
  induction s as [|c s IH]; [reflexivity|].
  cbn [lstrip]. destruct (char_in c "extra.") eqn:E; [exact IH|].
  cbn [starts_with_stripped]. exact E.
Qed.

Lemma lstrip_unchanged (s : string) :
  starts_with_stripped s = false -> lstrip s "extra." = s.
Proof.
  destruct s as [|c s]; [reflexivity|].
  cbn [starts_with_stripped lstrip]. intros ->. reflexivity.
Qed.

Lemma flatten_obj_keys_stripped (sep : string) (v : pyobj A) :
  forall parent_key, keys_stripped (flatten_obj v parent_key sep).
Proof.
  induction v as [a|d IHd] using pyobj_nested_ind; intros parent_key.
  - intros key _. apply lookup_empty.
  - fold (flatten_dict d parent_key sep). rewrite flatten_dict_loop.
    assert (keys_stripped (∅ : gmap string A)) as Hitems.
    { intros key _. apply lookup_empty. }
    revert Hitems. generalize (∅ : gmap string A) as items.
    induction IHd as [|[k v] d Hv _ IH]; intros items Hitems; [exact Hitems|].
    cbn [flatten_loop]. apply IH. destruct v as [a|val].
    + intros key Hkey. rewrite lookup_insert_ne; [apply Hitems; exact Hkey|].
      intros Heq. rewrite <- Heq, lstrip_not_stripped in Hkey. discriminate Hkey.
    + intros key Hkey. apply lookup_union_None. split.
      * apply (Hv (new_key parent_key sep k)). exact Hkey.
      * apply Hitems. exact Hkey.
Qed.

Lemma flatten_loop_leaves (sep : string) (d : list (string * A))
    (items : gmap string A) :
  NoDup d.*1 ->
  (forall k, k ∈ d.*1 -> starts_with_stripped k = false) ->
  flatten_loop (leaves d) "" sep items = list_to_map d ∪ items.
Proof.
  revert items. induction d as [|[k a] d IH]; intros items Hnodup Hkeys.
  - cbn. rewrite (left_id_L ∅ (∪)). reflexivity.
  - cbn in Hnodup. apply NoDup_cons in Hnodup as [Hk Hnodup].
    cbn [leaves fmap list_fmap prod_map fst snd id flatten_loop new_key].
    rewrite lstrip_unchanged by (apply Hkeys; cbn; left).
    fold (leaves d). rewrite IH; [|exact Hnodup|].
    2: { intros k' Hk'. apply Hkeys. cbn. right. exact Hk'. }
    cbn [list_to_map foldr uncurry fst snd].
    rewrite <- insert_union_l. symmetry. apply insert_union_r.
    apply not_elem_of_list_to_map_1. exact Hk.
Qed.

End FlattenFacts.

(** X10.  No key of a flattened dictionary begins with one of the
    characters e, x, t, r, a or '.': [lstrip("extra.")] removes every such
    leading character, not the prefix "extra.", so an attribute whose name
    begins with one of them (trace_id, request_id, error, ...) is never
    exported under its own name. *)
Theorem flatten_dict_strips_keys :
  forall (A : Type) (d : list (string * Logging.pyobj A))
         (parent_key sep key : string),
    starts_with_stripped key = true ->
    Logging.flatten_dict d parent_key sep !! key = None.
Proof.
  intros A d parent_key sep key Hkey.
  exact (flatten_obj_keys_stripped sep (Logging.Dict d) parent_key key Hkey).
Qed.

Lemma flatten_dict_strips_keys_witness :
  Logging.flatten_dict [("trace_id", Logging.Leaf 7%nat)] "" "." !! "trace_id"
  = None.
Proof.
  apply (flatten_dict_strips_keys nat [("trace_id", Logging.Leaf 7%nat)] "" "."
           "trace_id").
  reflexivity.
Defined.

(** X11.  On a flat dictionary whose keys are distinct and do not begin
    with e, x, t, r, a or '.', [flatten_dict] called without parent key is
    the identity: every value is kept under its own key. *)
Theorem flatten_dict_flat_identity :
  forall (A : Type) (d : list (string * A)) (sep : string),
    NoDup d.*1 ->
    (forall k, k ∈ d.*1 -> starts_with_stripped k = false) ->
    Logging.flatten_dict (leaves d) "" sep = list_to_map d.
Proof.
  intros A d sep Hnodup Hkeys.
  rewrite flatten_dict_loop, flatten_loop_leaves by assumption.
  apply (right_id_L ∅ (∪)).
Qed.

Lemma flatten_dict_flat_identity_witness :
  Logging.flatten_dict (leaves [("user_id", 42%nat); ("method", 1%nat)]) "" "."
  = list_to_map [("user_id", 42%nat); ("method", 1%nat)].
Proof.
  apply (flatten_dict_flat_identity nat [("user_id", 42%nat); ("method", 1%nat)] ".").
  - apply NoDup_cons. split.
    + intros H. apply list_elem_of_In in H. simpl in H. intuition discriminate.
    + apply NoDup_cons. split; [apply not_elem_of_nil|apply NoDup_nil_2].
  - intros k H. apply list_elem_of_In in H. simpl in H.
    destruct H as [<-|[<-|[]]]; reflexivity.
Defined.

(** ** More on the settings *)

Section SplitFacts.
Import Py.

Lemma startswith_nil (s : string) : startswith s "" = true.
Proof. destruct s; reflexivity. Qed.

Lemma string_app_assoc (s1 s2 s3 : string) :
  ((s1 ++ s2) ++ s3)%string = (s1 ++ (s2 ++ s3))%string.
Proof.
  induction s1 as [|c s1 IH]; [reflexivity|].
  change (String c (((s1 ++ s2) ++ s3)%string) = String c (s1 ++ (s2 ++ s3))%string).
  rewrite IH. reflexivity.
Qed.

Lemma rev_string_app (s acc : string) :
  rev_string acc s = (rev_string "" s ++ acc)%string.
Proof.
  revert acc. induction s as [|c s IH]; intros acc; [reflexivity|].
  cbn [rev_string]. rewrite IH, (IH (String c "")).
  rewrite string_app_assoc. reflexivity.
Qed.

Lemma join_cons (sep piece : string) (rest : list string) :
  rest <> [] -> join sep (piece :: rest) = (piece ++ sep ++ join sep rest)%string.
Proof. destruct rest; [congruence|reflexivity]. Qed.

(** Joining the pieces with the separator gives the text back. *)
Lemma join_split_comma (s cur : string) :
  join "," (split_from "," 0 cur s) = rev_string s cur.
Proof.
  revert cur. induction s as [|c s IH]; intros cur; [reflexivity|].
  cbn [split_from startswith]. rewrite startswith_nil.
  destruct (Ascii.eqb "," c) eqn:E.
  - apply Ascii.eqb_eq in E. subst c.
    cbn [String.length Nat.sub].
    rewrite join_cons by apply split_from_nonempty.
    rewrite IH. cbn [rev_string].
    rewrite (rev_string_app cur (String "," s)). reflexivity.
  - rewrite IH. reflexivity.
Qed.

Lemma char_in_rev_string (c : ascii) (s acc : string) :
  Logging.char_in c (rev_string acc s)
  = Logging.char_in c s || Logging.char_in c acc.
Proof.
  revert acc. induction s as [|c' s IH]; intros acc; [reflexivity|].
  cbn [rev_string Logging.char_in]. rewrite IH. cbn [Logging.char_in].
  destruct (Ascii.eqb c c'), (Logging.char_in c s), (Logging.char_in c acc);
    reflexivity.
Qed.

(** No piece holds a comma. *)
Lemma split_comma_pieces (s cur : string) :
  Logging.char_in "," cur = false ->
  Forall (fun piece => Logging.char_in "," piece = false)
    (split_from "," 0 cur s).
Proof.
  revert cur. induction s as [|c s IH]; intros cur Hcur.
  - cbn. constructor; [|constructor].
    rewrite char_in_rev_string, Hcur. reflexivity.
  - cbn [split_from startswith]. rewrite startswith_nil.
    destruct (Ascii.eqb "," c) eqn:E.
    + cbn [String.length Nat.sub]. constructor; [|apply IH; reflexivity].
      rewrite char_in_rev_string, Hcur. reflexivity.
    + apply IH. cbn [Logging.char_in]. rewrite E, Hcur. reflexivity.
Qed.

End SplitFacts.

(** X12.  Each list of CORSSettings, joined again with commas, is the
    configured text: nothing is trimmed and nothing dropped, an empty piece
    included; and no piece holds a comma. *)
Theorem cors_lists_roundtrip :
  forall B environ,
    let raw name := default "" (environ !! name) in
    let comma_free := Forall (fun piece => Logging.char_in "," piece = false) in
    exists c,
      Settings.CORSSettings.class_body B environ = Py.Ok c
      /\ join "," (Settings.CORSSettings.allow_origins c) = raw "ALLOWED_ORIGINS"
      /\ join "," (Settings.CORSSettings.allow_methods c) = raw "ALLOWED_METHODS"
      /\ join "," (Settings.CORSSettings.allow_headers c) = raw "ALLOWED_HEADERS"
      /\ comma_free (Settings.CORSSettings.allow_origins c)
      /\ comma_free (Settings.CORSSettings.allow_methods c)
      /\ comma_free (Settings.CORSSettings.allow_headers c).
Proof.
  intros B environ raw comma_free.
  unfold Settings.CORSSettings.class_body.
  rewrite !get_env_var_Ok. cbn -[Py.split_from].
  eexists. split; [reflexivity|]. cbn -[Py.split_from join].
  unfold comma_free.
  repeat split; try (apply split_comma_pieces; reflexivity).
  all: rewrite join_split_comma; cbn [Py.rev_string]; unfold raw.
  - destruct (environ !! "ALLOWED_ORIGINS"); reflexivity.
  - destruct (environ !! "ALLOWED_METHODS"); reflexivity.
  - destruct (environ !! "ALLOWED_HEADERS"); reflexivity.
Qed.

Section ExternalServiceFacts.
Import Py Settings.
Variable B : builtins.

Lemma get_settings_keeps_class (st : module_state B) :
  Settings_class (get_settings st).2 = Settings_class st
  /\ (cache_consistent st ->
      class_of (get_settings st).1 = Settings_class st
      /\ cache_consistent (get_settings st).2).
Proof.
  unfold get_settings, cache_consistent.
  destruct (get_settings_cache st) as [o|] eqn:E; cbn.
  - split; [reflexivity|]. intros H. split; [apply H; reflexivity|].
    intros o' Ho'. rewrite E in Ho'. apply H. exact Ho'.
  - split; [reflexivity|]. intros _. split; [reflexivity|].
    intros o' Ho'. injection Ho' as <-. reflexivity.
Qed.

Lemma get_settings_calls_keeps_class (n : nat) (st : module_state B) :
  cache_consistent st ->
  Settings_class (get_settings_calls n st).2 = Settings_class st
  /\ cache_consistent (get_settings_calls n st).2.
Proof.
  revert st. induction n as [|n IH]; intros st Hst; [split; [reflexivity|exact Hst]|].
  cbn [get_settings_calls].
  destruct (get_settings_keeps_class st) as [Hcls Hcache].
  destruct (Hcache Hst) as [_ Hst1].
  destruct (get_settings st) as [o st1]. cbn [snd] in Hcls, Hst1.
  destruct (IH st1 Hst1) as [Hcls2 Hst2].
  destruct (get_settings_calls n st1) as [os st2]. cbn [snd] in *.
  split; [congruence|exact Hst2].
Qed.

Lemma import_module_external_services (environ : gmap string string) :
  exists st,
    import_module B environ = Ok st
    /\ cache_consistent st
    /\ external_services (Settings_class st)
       = new 7
           {| ExternalServiceSettings.learning_service_url :=
                default "" (environ !! "LEARNING_URL");
              ExternalServiceSettings.scheduling_service_url :=
                default "" (environ !! "SCHEDULING_URL") |}.
Proof.
  unfold import_module.
  destruct (AppSettings_returns B environ) as [c1 ->].
  destruct (CORSSettings_returns B environ) as [c2 ->].
  destruct (DatabaseSettings_returns B environ) as [c3 ->].
  destruct (KeycloakSettings_returns B environ) as [c4 ->].
  destruct (LogSettings_returns B environ) as [c5 ->].
  destruct (TelemetrySettings_returns B environ) as [c6 ->].
  destruct (RabbitMqSettings_returns B environ) as [c7 [-> _]].
  unfold ExternalServiceSettings.class_body. rewrite !get_env_var_Ok.
  cbn. eexists. split; [reflexivity|]. split; [intros o Ho; discriminate Ho|].
  cbn. destruct (environ !! "LEARNING_URL"), (environ !! "SCHEDULING_URL");
    reflexivity.
Qed.

End ExternalServiceFacts.

(** X13.  [get_external_service_settings] returns, at every call and
    whatever calls of [get_settings] came before, the one
    ExternalServiceSettings instance created when the module was imported:
    it is an attribute of the class Settings, shared by all its instances,
    and its two URLs are the values of LEARNING_URL and SCHEDULING_URL at
    import, the empty string when unset. *)
Theorem external_service_settings_shared :
  forall B environ st,
    Settings.import_module B environ = Py.Ok st ->
    forall n : nat,
      let before := (Settings.get_settings_calls n st).2 in
      let o := (Settings.get_external_service_settings before).1 in
      o = Settings.external_services (Settings.Settings_class st)
      /\ Settings.oid o = 7%nat
      /\ Settings.ExternalServiceSettings.learning_service_url (Settings.class_of o)
         = default "" (environ !! "LEARNING_URL")
      /\ Settings.ExternalServiceSettings.scheduling_service_url (Settings.class_of o)
         = default "" (environ !! "SCHEDULING_URL").
Proof.
  intros B environ st Hst n before o.
  destruct (import_module_external_services B environ) as (st' & Hst' & Hcache & Hext).
  rewrite Hst in Hst'. injection Hst' as <-.
  destruct (get_settings_calls_keeps_class B n st Hcache) as [Hcls Hbefore].
  fold before in Hcls, Hbefore.
  destruct (get_settings_keeps_class B before) as [_ Hget].
  destruct (Hget Hbefore) as [Hclass _].
  assert (o = Settings.external_services (Settings.Settings_class st)) as Ho.
  { unfold o, Settings.get_external_service_settings.
    destruct (Settings.get_settings before) as [o' st'']. cbn [fst] in *.
    rewrite Hclass, Hcls. reflexivity. }
  rewrite Ho, Hext. repeat split.
Qed.

Lemma external_service_settings_shared_witness :
  exists st,
    Settings.import_module Settings.dec_builtins
      {[ "LEARNING_URL" := "http://learning:8080" ]} = Py.Ok st
    /\ let before := (Settings.get_settings_calls 2 st).2 in
       let o := (Settings.get_external_service_settings before).1 in
       o = Settings.external_services (Settings.Settings_class st)
       /\ Settings.oid o = 7%nat
       /\ Settings.ExternalServiceSettings.learning_service_url (Settings.class_of o)
          = default "" (({[ "LEARNING_URL" := "http://learning:8080" ]}
                           : gmap string string) !! "LEARNING_URL")
       /\ Settings.ExternalServiceSettings.scheduling_service_url (Settings.class_of o)
          = default "" (({[ "LEARNING_URL" := "http://learning:8080" ]}
                           : gmap string string) !! "SCHEDULING_URL").
Proof.
  destruct (import_module_external_services Settings.dec_builtins
              {[ "LEARNING_URL" := "http://learning:8080" ]}) as (st & Hst & _).
  exists st. split; [exact Hst|].
  exact (external_service_settings_shared Settings.dec_builtins _ st Hst 2).
Defined.

(** ** Routes of main.py behind the middleware *)

Section RouteFacts.
Import Py Auth.

Lemma api_paths_not_public (path : string) :
  startswith path "/api/v1/payments" = true ->
  existsb (startswith path) main_public_apis = false.
Proof.
  intros H.
  destruct path as [|c1 path]; [discriminate H|].
  cbn [startswith] in H.
  destruct (Ascii.eqb "/" c1) eqn:E1; [|discriminate H].
  destruct path as [|c2 rest]; cbn [startswith] in H; [discriminate H|].
  destruct (Ascii.eqb "a" c2) eqn:E2; [|discriminate H].
  apply Ascii.eqb_eq in E1. apply Ascii.eqb_eq in E2. subst. reflexivity.
Qed.

End RouteFacts.

(** X14.  With the prefixes main.py configures, every route of the
    payments router, mounted under /api/v1/payments, is protected: a
    request for such a path, other than a preflight, that carries no
    Authorization header, or one that does not start with "Bearer ", is
    answered 401 without the route being called. *)
Theorem payments_routes_protected :
  forall (V U R : Type) validate_token UUID call_next (request : Auth.Request U),
    Py.startswith (Auth.path request) "/api/v1/payments" = true ->
    Auth.method request <> "OPTIONS" ->
    match Auth.headers_get request "Authorization" with
    | None => True
    | Some header => Py.startswith header "Bearer " = false
    end ->
    Auth.dispatch V U R validate_token UUID call_next Auth.main_public_apis request
    = ([], Py.Ok (Auth.error_json_response "Invalid token" Auth.INVALID_TOKEN 401)).
Proof.
  intros V U R validate_token UUID call_next request Hpath Hm Hh.
  apply dispatch_no_bearer; [exact Hm| |exact Hh].
  intros prefix Hin.
  pose proof (api_paths_not_public _ Hpath) as Hnone.
  destruct (Py.startswith (Auth.path request) prefix) eqn:E; [|reflexivity].
  assert (existsb (Py.startswith (Auth.path request)) Auth.main_public_apis = true)
    as Hsome.
  { apply existsb_exists. exists prefix. split; [|exact E].
    apply list_elem_of_In. exact Hin. }
  congruence.
Qed.

Lemma payments_routes_protected_witness :
  Auth.dispatch string string string accepting_validator Py.Ok sample_app
    Auth.main_public_apis (sample_request "POST" "/api/v1/payments/checkout")
  = ([], Py.Ok (Auth.error_json_response "Invalid token" Auth.INVALID_TOKEN 401)).
Proof.
  apply (payments_routes_protected string string string accepting_validator
           Py.Ok sample_app (sample_request "POST" "/api/v1/payments/checkout")).
  - reflexivity.
  - discriminate.
  - exact I.
Defined.

Section DispatchCounts.
Import Py Auth.
Variables V U R : Type.
Variable validate_token : string -> result (gmap string (any V)).
Variable UUID : V -> result U.
Variable call_next : Request U -> result (Response R).
Variable public_apis : list string.

Lemma handle_counts (token : string) (e : exn) :
  handed_on (handle U R [ValidateToken token] e).1 = []
  /\ validated_tokens (handle U R [ValidateToken token] e).1 = [token].
Proof. destruct e; split; reflexivity. Qed.

Lemma after_validation_counts (request : Request U) (token : string)
    (validated : result (gmap string (any V))) :
  let trace := (after_validation UUID call_next request token validated).1 in
  (length (handed_on trace) <= 1)%nat /\ validated_tokens trace = [token].
Proof.
  unfold after_validation.
  destruct validated as [payload|e].
  2: { destruct (handle_counts token e) as [-> ->]. cbn. split; [lia|reflexivity]. }
  destruct (payload !! "sub") as [[|user_id]|]; cbn; try (split; [lia|reflexivity]).
  destruct (UUID user_id) as [u|e]; cbn; [split; [lia|reflexivity]|].
  destruct (handle_counts token e) as [-> ->]. cbn. split; [lia|reflexivity].
Qed.

End DispatchCounts.

(** X15.  Whatever the request and whatever its collaborators answer,
    [dispatch] calls the downstream handler at most once and the validator
    at most once; and when the request is a preflight or public it does not
    call the validator at all. *)
Theorem dispatch_calls_at_most_once :
  forall (V U R : Type) validate_token UUID call_next public_apis
         (request : Auth.Request U),
    let trace :=
      (Auth.dispatch V U R validate_token UUID call_next public_apis request).1 in
    (length (handed_on trace) <= 1)%nat
    /\ (length (validated_tokens trace) <= 1)%nat
    /\ (if String.eqb (Auth.method request) "OPTIONS"
           || existsb (Py.startswith (Auth.path request)) public_apis
        then validated_tokens trace = [] /\ handed_on trace = [request]
        else True).
Proof.
  intros V U R validate_token UUID call_next public_apis request trace.
  unfold trace, Auth.dispatch.
  destruct (String.eqb (Auth.method request) "OPTIONS") eqn:Hm; cbn [orb].
  { cbn. repeat split; lia. }
  destruct (existsb (Py.startswith (Auth.path request)) public_apis) eqn:Hp.
  { cbn. repeat split; lia. }
  destruct (Auth.headers_get request "Authorization") as [header|] eqn:Hh.
  2: { cbn. repeat split; lia. }
  destruct (Py.startswith header "Bearer ") eqn:Hb.
  2: { rewrite orb_true_r. cbn. repeat split; lia. }
  destruct (bearer_token_defined header Hb) as [token Ht].
  apply String.eqb_neq in Hm.
  pose proof (dispatch_bearer V U R validate_token UUID call_next public_apis
                request header token Hm Hp Hh Hb Ht) as Hd.
  unfold Auth.dispatch in Hd. apply String.eqb_neq in Hm.
  rewrite Hm, Hp, Hh, Hb in Hd. rewrite Hd.
  destruct (after_validation_counts V U R UUID call_next request token
              (validate_token token)) as [Hcalls Hvalidated].
  cbn zeta in Hcalls, Hvalidated.
  rewrite Hvalidated. cbn. repeat split; [exact Hcalls|lia].
Qed.

(** X16.  The application name and the service name of the logs are the
    same text: both classes read PAYMENT_NAME, with the same default
    "payment-service", when the module is imported. *)
Theorem service_name_is_app_name :
  forall B environ,
  exists st,
    Settings.import_module B environ = Py.Ok st
    /\ Settings.AppSettings.name
         (Settings.class_of (Settings.app (Settings.Settings_class st)))
       = default "payment-service" (environ !! "PAYMENT_NAME")
    /\ Settings.LogSettings.service_name
         (Settings.class_of (Settings.log (Settings.Settings_class st)))
       = Settings.AppSettings.name
           (Settings.class_of (Settings.app (Settings.Settings_class st))).
Proof.
  intros B environ. unfold Settings.import_module.
  unfold Settings.AppSettings.class_body at 1.
  unfold Settings.LogSettings.class_body at 1.
  rewrite !get_env_var_Ok.
  destruct (CORSSettings_returns B environ) as [c2 ->].
  destruct (DatabaseSettings_returns B environ) as [c3 ->].
  destruct (KeycloakSettings_returns B environ) as [c4 ->].
  destruct (TelemetrySettings_returns B environ) as [c6 ->].
  destruct (RabbitMqSettings_returns B environ) as [c7 [-> _]].
  destruct (ExternalServiceSettings_returns B environ) as [c8 ->].
  cbn. eexists. split; [reflexivity|]. cbn.
  destruct (environ !! "PAYMENT_NAME"); split; reflexivity.
Qed.
